(** * script-src-generator: the [scriptsrc] package, embedded and verified

    The Go package [scriptsrc] computes the [script-src] directive of a
    Content Security Policy from trusted HTML documents.  This file embeds
    its data model ([ScriptSrc], the [html.Node] tree it reads) and its
    operations ([String], [AddInline], [AddSrc], [AddFromHTML],
    [AddFromHTMLFile], [ScriptSrcFromHTMLFile], [ScriptSrcFromHTMLFiles]),
    and proves the properties the specification states about them.

    Go strings are byte sequences, so they are Rocq [string]s; [uint8] is
    [Byte.byte]; a method with a pointer receiver is a computation in a
    state monad over the receiver; [panic] is a second outcome of that
    monad; a Go [error] result is an [option error] ([None] is [nil]).
    The libraries the package calls ([crypto/sha512], [crypto/sha256],
    [net/url], [os], [x/net/html]) are an interface, [Collaborators]. *)

From Stdlib Require Import String Ascii Strings.Byte List ZArith NArith Bool Lia.
From Stdlib Require DecimalString.
Import ListNotations.
Set Warnings "-register-all".
Local Open Scope list_scope.
Local Open Scope string_scope.

(** ** Part I: definitions *)

(** *** The Go library functions the package uses on strings and slices *)

Module strings.

(** [strings.HasPrefix(s, prefix)] *)
Definition HasPrefix (s prefix : string) : bool := String.prefix prefix s.

(** [strings.Join(elems, sep)]: nothing for no element, the element alone
    for one, and otherwise a builder that receives the first element and
    then, for each further one, the separator and the element. *)
Definition Join (elems : list string) (sep : string) : string :=
  match elems with
  | [] => ""
  | [e] => e
  | e :: rest => fold_left (fun b s => b ++ sep ++ s) rest e
  end.

End strings.

Module slices.

(** [slices.Contains(s, v)] on a slice of strings *)
Definition Contains (s : list string) (v : string) : bool :=
  existsb (fun x => String.eqb x v) s.

End slices.

Module base64.

(** The alphabet of [base64.StdEncoding] and its padding character. *)
Definition encodeStd : string :=
  "ABCDEFGHIJKLMNOPQRSTUVWXYZabcdefghijklmnopqrstuvwxyz0123456789+/".
Definition StdPadding : ascii := "="%char.

Definition encode (v : N) : ascii :=
  match String.get (N.to_nat v) encodeStd with
  | Some c => c
  | None => StdPadding
  end.

Definition sextet (val : N) (shift : N) : ascii :=
  encode (N.land (N.shiftr val shift) 63).

(** [StdEncoding.EncodeToString(src)]: three bytes give four characters;
    a remainder of one byte gives two characters and two paddings, of two
    bytes three characters and one padding. *)
Fixpoint EncodeToString (src : list byte) : string :=
  match src with
  | [] => ""
  | [b0] =>
      let val := N.shiftl (Byte.to_N b0) 16 in
      String (sextet val 18) (String (sextet val 12)
        (String StdPadding (String StdPadding "")))
  | [b0; b1] =>
      let val := N.lor (N.shiftl (Byte.to_N b0) 16) (N.shiftl (Byte.to_N b1) 8) in
      String (sextet val 18) (String (sextet val 12)
        (String (sextet val 6) (String StdPadding "")))
  | b0 :: b1 :: b2 :: rest =>
      let val := N.lor (N.lor (N.shiftl (Byte.to_N b0) 16)
                              (N.shiftl (Byte.to_N b1) 8)) (Byte.to_N b2) in
      String (sextet val 18) (String (sextet val 12)
        (String (sextet val 6) (String (sextet val 0) (EncodeToString rest))))
  end.

End base64.

(** *** Data model *)

(** [type HashAlgorithm uint8] with its two constants. *)
Definition HashAlgorithm : Type := byte.
Definition Sha512 : HashAlgorithm := x00.
Definition Sha256 : HashAlgorithm := x01.

(** [type ScriptSrc struct] *)
Record ScriptSrc : Type := mkScriptSrc {
  Self : bool;
  Hashes : list string;
  DefaultHashAlgorithm : HashAlgorithm;
  Hosts : list string;
  Others : list string
}.

(** [&ScriptSrc{}], the zero value. *)
Definition zeroScriptSrc : ScriptSrc := mkScriptSrc false [] x00 [] [].

Definition setSelf (v : bool) (s : ScriptSrc) : ScriptSrc :=
  mkScriptSrc v (Hashes s) (DefaultHashAlgorithm s) (Hosts s) (Others s).
Definition setHashes (v : list string) (s : ScriptSrc) : ScriptSrc :=
  mkScriptSrc (Self s) v (DefaultHashAlgorithm s) (Hosts s) (Others s).
Definition setHosts (v : list string) (s : ScriptSrc) : ScriptSrc :=
  mkScriptSrc (Self s) (Hashes s) (DefaultHashAlgorithm s) v (Others s).

(** The part of [html.Node] the package reads.  [FirstChild] and
    [NextSibling] chain the children of a node; the chain is the list
    [Children]. *)
Inductive NodeType : Type :=
| ErrorNode | TextNode | DocumentNode | ElementNode
| CommentNode | DoctypeNode | RawNode.

Definition NodeType_eqb (a b : NodeType) : bool :=
  match a, b with
  | ErrorNode, ErrorNode | TextNode, TextNode | DocumentNode, DocumentNode
  | ElementNode, ElementNode | CommentNode, CommentNode
  | DoctypeNode, DoctypeNode | RawNode, RawNode => true
  | _, _ => false
  end.

Record Attribute : Type := mkAttribute {
  Namespace : string;
  Key : string;
  Val : string
}.

Inductive Node : Type :=
| mkNode (type : NodeType) (data : string) (attr : list Attribute)
         (children : list Node).

Definition NType (n : Node) : NodeType := let 'mkNode t _ _ _ := n in t.
Definition Data (n : Node) : string := let 'mkNode _ d _ _ := n in d.
Definition Attr (n : Node) : list Attribute := let 'mkNode _ _ a _ := n in a.
Definition Children (n : Node) : list Node := let 'mkNode _ _ _ c := n in c.

(** The error values of the package: one constructor per [fmt.Errorf] call,
    with the operands of its format; [%w] operands are kept as errors.
    [LibError] is an error made by one of the libraries. *)
Inductive error : Type :=
| LibError (msg : string)
| ErrParseSrc (srcString : string) (err : error)
| ErrInsecureSrc (srcString : string)
| ErrUnknownSrc (srcString : string)
| ErrSecondSrc (val : string)
| ErrNoContent
| ErrNotText
| ErrMultipleChildren
| ErrInvalidHashAlgorithm (alg : HashAlgorithm)
| ErrParseHTML (path : string) (err : error)
| ErrProcess (path : string) (err : error)
| ErrMultiple (errors : list error).

(** [*url.URL], the fields [net/url] fills from a reference. *)
Record URL : Type := mkURL {
  Scheme : string;
  Opaque : string;
  User : option string;
  Host : string;
  Path : string;
  RawQuery : string;
  Fragment : string
}.

(** The libraries behind the package. *)
Class Collaborators : Type := {
  (** [h := sha512.New(); h.Write(b); h.Sum(nil)] *)
  sha512_Sum : list byte -> list byte;
  (** [h := sha256.New(); h.Write(b); h.Sum(nil)] *)
  sha256_Sum : list byte -> list byte;
  (** [url.Parse] *)
  url_Parse : string -> error + URL;
  (** [*os.File] and [os.Open] *)
  File : Type;
  os_Open : string -> error + File;
  (** [html.Parse] on an open file *)
  html_Parse : File -> error + Node
}.

(** *** The monad of methods on [*ScriptSrc] *)

Inductive outcome (A : Type) : Type :=
| Returns (a : A)
| Panics (v : error).
Arguments Returns {A} a.
Arguments Panics {A} v.

Definition M (A : Type) : Type := ScriptSrc -> outcome (A * ScriptSrc).

Definition ret {A : Type} (a : A) : M A := fun s => Returns (a, s).

Definition bind {A B : Type} (c : M A) (k : A -> M B) : M B :=
  fun s =>
    match c s with
    | Returns (a, s') => k a s'
    | Panics v => Panics v
    end.

Definition panic {A : Type} (v : error) : M A := fun _ => Panics v.
Definition get : M ScriptSrc := fun s => Returns (s, s).
Definition modify (f : ScriptSrc -> ScriptSrc) : M unit :=
  fun s => Returns (tt, f s).

Declare Scope go_scope.
Delimit Scope go_scope with go.
Notation "x <- c ;; k" := (bind c (fun x => k))
  (at level 61, c at next level, right associativity) : go_scope.
Notation "c ;; k" := (bind c (fun _ => k))
  (at level 61, right associativity) : go_scope.
Local Open Scope go_scope.

(** *** The operations of the package *)

Section Operations.

Context {libs : Collaborators}.

(** [func (scriptSrc *ScriptSrc) String() string] *)
Definition ScriptSrc_String (scriptSrc : ScriptSrc) : string :=
  let srcs : list string := [] in
  let srcs := if Self scriptSrc then (srcs ++ ["'self'"])%list else srcs in
  let srcs :=
    fold_left (fun srcs hash => (srcs ++ [("'" ++ hash ++ "'")%string])%list)
              (Hashes scriptSrc) srcs in
  let srcs := (srcs ++ Hosts scriptSrc)%list in
  let srcs := (srcs ++ Others scriptSrc)%list in
  strings.Join srcs " ".

(** The [switch] of [AddInline]: the token of [content] under the
    algorithm, or the value the default branch panics with. *)
Definition inlineHash (alg : HashAlgorithm) (content : string) : error + string :=
  match alg with
  | x00 =>
      inr ("sha512-" ++
           base64.EncodeToString (sha512_Sum (list_byte_of_string content)))
  | x01 =>
      inr ("sha256-" ++
           base64.EncodeToString (sha256_Sum (list_byte_of_string content)))
  | _ => inl (ErrInvalidHashAlgorithm alg)
  end.

(** [func (scriptSrc *ScriptSrc) AddInline(content string)] *)
Definition AddInline (content : string) : M unit :=
  scriptSrc <- get ;;
  match inlineHash (DefaultHashAlgorithm scriptSrc) content with
  | inl v => panic v
  | inr hash =>
      if negb (slices.Contains (Hashes scriptSrc) hash)
      then modify (fun s => setHashes (Hashes s ++ [hash])%list s)
      else ret tt
  end.

(** [host := "https://" + src.Host] *)
Definition hostSource (src : URL) : string := "https://" ++ Host src.

(** [func (scriptSrc *ScriptSrc) AddSrc(srcString string) error] *)
Definition AddSrc (srcString : string) : M (option error) :=
  match url_Parse srcString with
  | inl err => ret (Some (ErrParseSrc srcString err))
  | inr src =>
      if Scheme src =? "http" then
        ret (Some (ErrInsecureSrc srcString))
      else if Scheme src =? "https" then
        let host := hostSource src in
        scriptSrc <- get ;;
        (if negb (slices.Contains (Hosts scriptSrc) host)
         then modify (fun s => setHosts (Hosts s ++ [host])%list s)
         else ret tt) ;;
        ret None
      else if Scheme src =? "" then
        modify (setSelf true) ;;
        ret None
      else
        ret (Some (ErrUnknownSrc srcString))
  end.

(** The loop of [AddFromHTML] over the attributes of a script element.
    It leaves the function with an error ([inl]) at a second [src], or
    ends with the value of [hasSrc] ([inr]).  The result of the call of
    [AddSrc] is not bound to anything. *)
Fixpoint scanSrc (attrs : list Attribute) (hasSrc : bool) : M (error + bool) :=
  match attrs with
  | [] => ret (inr hasSrc)
  | attr :: attrs' =>
      if Key attr =? "src" then
        if hasSrc then
          ret (inl (ErrSecondSrc (Val attr)))
        else
          AddSrc (Val attr) ;;
          scanSrc attrs' true
      else
        scanSrc attrs' hasSrc
  end.

(** The loop of [AddFromHTML] over the attributes of any other node, run
    when [includeEventHandlers] holds. *)
Fixpoint addEventHandlers (attrs : list Attribute) : M unit :=
  match attrs with
  | [] => ret tt
  | attr :: attrs' =>
      (if strings.HasPrefix (Key attr) "on" then AddInline (Val attr)
       else ret tt) ;;
      addEventHandlers attrs'
  end.

(** [for c := n.FirstChild; c != nil; c = c.NextSibling], leaving at the
    first error. *)
Definition forChildren (visit : Node -> M (option error))
  : list Node -> M (option error) :=
  fix loop (cs : list Node) : M (option error) :=
    match cs with
    | [] => ret None
    | c :: cs' =>
        err <- visit c ;;
        match err with
        | Some e => ret (Some e)
        | None => loop cs'
        end
    end.

(** The inline branch of [AddFromHTML]: [content := n.FirstChild] and the
    three checks on it. *)
Definition addInlineScript (children : list Node) : M (option error) :=
  match children with
  | [] => ret (Some ErrNoContent)
  | content :: siblings =>
      if negb (NodeType_eqb (NType content) TextNode) then
        ret (Some ErrNotText)
      else if negb (Nat.eqb (length siblings) 0)
              || negb (Nat.eqb (length (Children content)) 0) then
        ret (Some ErrMultipleChildren)
      else
        AddInline (Data content) ;;
        ret None
  end.

(** [func (scriptSrc *ScriptSrc) AddFromHTML(n *html.Node, includeEventHandlers bool) error] *)
Fixpoint AddFromHTML (n : Node) (includeEventHandlers : bool) {struct n}
  : M (option error) :=
  match n with
  | mkNode type data attr children =>
      if NodeType_eqb type ElementNode && (data =? "script") then
        r <- scanSrc attr false ;;
        match r with
        | inl err => ret (Some err)
        | inr true => ret None
        | inr false => addInlineScript children
        end
      else
        (if includeEventHandlers then addEventHandlers attr else ret tt) ;;
        forChildren (fun c => AddFromHTML c includeEventHandlers) children
  end.

(** [func (scriptSrc *ScriptSrc) AddFromHTMLFile(path string, includeEventHandlers bool) error] *)
Definition AddFromHTMLFile (path : string) (includeEventHandlers : bool)
  : M (option error) :=
  match os_Open path with
  | inl err => ret (Some err)
  | inr f =>
      match html_Parse f with
      | inl err => ret (Some (ErrParseHTML path err))
      | inr doc =>
          err <- AddFromHTML doc includeEventHandlers ;;
          match err with
          | Some e => ret (Some (ErrProcess path e))
          | None => ret None
          end
      end
  end.

(** [func ScriptSrcFromHTMLFile(path string, includeEventHandlers bool) ( *ScriptSrc, error )] *)
Definition ScriptSrcFromHTMLFile (path : string) (includeEventHandlers : bool)
  : outcome (ScriptSrc * option error) :=
  match AddFromHTMLFile path includeEventHandlers zeroScriptSrc with
  | Returns (err, scriptSrc) => Returns (scriptSrc, err)
  | Panics v => Panics v
  end.

(** The loop of [ScriptSrcFromHTMLFiles] over the paths, with the slice
    [errors] it appends to. *)
Fixpoint collectFiles (paths : list string) (includeEventHandlers : bool)
         (errors : list error) : M (list error) :=
  match paths with
  | [] => ret errors
  | path :: paths' =>
      err <- AddFromHTMLFile path includeEventHandlers ;;
      match err with
      | Some e => collectFiles paths' includeEventHandlers (errors ++ [e])%list
      | None => collectFiles paths' includeEventHandlers errors
      end
  end.

(** [func ScriptSrcFromHTMLFiles(paths []string, includeEventHandlers bool) ( *ScriptSrc, error )];
    a [nil] pointer result is [None]. *)
Definition ScriptSrcFromHTMLFiles (paths : list string) (includeEventHandlers : bool)
  : outcome (option ScriptSrc * option error) :=
  match collectFiles paths includeEventHandlers [] zeroScriptSrc with
  | Returns (errors, scriptSrc) =>
      match errors with
      | [] => Returns (Some scriptSrc, None)
      | [e] => Returns (None, Some e)
      | _ => Returns (None, Some (ErrMultiple errors))
      end
  | Panics v => Panics v
  end.

End Operations.

(** *** Vocabulary of the statements *)

(** The two values of [HashAlgorithm] the package names. *)
Definition supported (alg : HashAlgorithm) : Prop :=
  alg = Sha512 \/ alg = Sha256.

(** The attributes of an element that are named [src]. *)
Definition isSrc (attr : Attribute) : bool := Key attr =? "src".
Definition srcAttributes (n : Node) : list Attribute := filter isSrc (Attr n).

Definition isScript (n : Node) : Prop :=
  NType n = ElementNode /\ Data n = "script".

(** The content of a well-shaped inline script: the element has exactly
    one child, and that child is a text node without children. *)
Definition inlineContent (n : Node) : option string :=
  match Children n with
  | [mkNode TextNode data _ []] => Some data
  | _ => None
  end.

(** The three errors for an inline script of another shape. *)
Definition invalidInlineScript (e : error) : Prop :=
  e = ErrNoContent \/ e = ErrNotText \/ e = ErrMultipleChildren.

(** The invariant of a policy: a named algorithm, and no entry twice in
    [Hashes] or in [Hosts]. *)
Definition Inv (s : ScriptSrc) : Prop :=
  supported (DefaultHashAlgorithm s) /\ NoDup (Hashes s) /\ NoDup (Hosts s).

(** A computation that, on a policy with the invariant, returns (it does
    not panic), keeps the invariant and keeps the algorithm. *)
Definition preserves {A : Type} (c : M A) : Prop :=
  forall s, Inv s ->
    exists r s', c s = Returns (r, s') /\ Inv s'
                 /\ DefaultHashAlgorithm s' = DefaultHashAlgorithm s.

(** [Processed paths b s errors s']: starting from the policy [s], every
    path of [paths] has been given to [AddFromHTMLFile] in order, each on
    the policy the one before left, whether that one failed or not; [s'] is
    the last policy and [errors] the errors of the failing files in order. *)
Inductive Processed {libs : Collaborators} (includeEventHandlers : bool)
  : list string -> ScriptSrc -> list error -> ScriptSrc -> Prop :=
| Processed_nil (s : ScriptSrc) :
    Processed includeEventHandlers [] s [] s
| Processed_ok (path : string) (paths : list string) (s s1 s' : ScriptSrc)
               (errors : list error) :
    AddFromHTMLFile path includeEventHandlers s = Returns (None, s1) ->
    Processed includeEventHandlers paths s1 errors s' ->
    Processed includeEventHandlers (path :: paths) s errors s'
| Processed_failed (path : string) (paths : list string) (s s1 s' : ScriptSrc)
                   (e : error) (errors : list error) :
    AddFromHTMLFile path includeEventHandlers s = Returns (Some e, s1) ->
    Processed includeEventHandlers paths s1 errors s' ->
    Processed includeEventHandlers (path :: paths) s (e :: errors) s'.

(** *** A reference instance of the libraries

    The theorems of Part II hold for every instance of [Collaborators].
    The instance below makes the operations run on concrete input: the two
    hash functions of FIPS 180-4, the scheme and authority split of
    [net/url], and a table of sample documents. *)

Module sha2.

Local Open Scope Z_scope.

(** The parameters in which SHA-256 and SHA-512 differ: word size in
    bits, number of rounds, and the rotation and shift amounts of the
    four mixing functions. *)
Record variant : Type := mkVariant {
  wordBits : Z;
  roundCount : nat;
  bigSigma0 : Z * Z * Z;
  bigSigma1 : Z * Z * Z;
  smallSigma0 : Z * Z * Z;
  smallSigma1 : Z * Z * Z
}.

Definition v256 : variant :=
  mkVariant 32 64 (2, 13, 22) (6, 11, 25) (7, 18, 3) (17, 19, 10).
Definition v512 : variant :=
  mkVariant 64 80 (28, 34, 39) (14, 18, 41) (1, 8, 7) (19, 61, 6).

Section Variant.

Variable v : variant.

Let w : Z := wordBits v.

Definition trunc (x : Z) : Z := Z.land x (Z.ones w).
Definition plus (x y : Z) : Z := trunc (x + y).
Definition rotr (n x : Z) : Z :=
  Z.lor (Z.shiftr x n) (trunc (Z.shiftl x (w - n))).
Definition mix3 (amounts : Z * Z * Z) (x : Z) : Z :=
  let '(a, b, c) := amounts in
  Z.lxor (Z.lxor (rotr a x) (rotr b x)) (rotr c x).
Definition mix2s (amounts : Z * Z * Z) (x : Z) : Z :=
  let '(a, b, c) := amounts in
  Z.lxor (Z.lxor (rotr a x) (rotr b x)) (Z.shiftr x c).
Definition ch (x y z : Z) : Z :=
  Z.lxor (Z.land x y) (Z.land (Z.lxor x (Z.ones w)) z).
Definition maj (x y z : Z) : Z :=
  Z.lxor (Z.lxor (Z.land x y) (Z.land x z)) (Z.land y z).

(** The first primes, and the constants FIPS 180-4 derives from them:
    the leading [w] bits of the fractional parts of their square and
    cube roots. *)
Definition isPrime (p : Z) : bool :=
  (1 <? p) &&
  forallb (fun d => negb (p mod d =? 0))
          (map (fun i => Z.of_nat i + 2) (seq 0 (Z.to_nat (p - 2)))).
Definition primesBelow (bound : nat) : list Z :=
  filter isPrime (map Z.of_nat (seq 0 bound)).

Fixpoint cubeRootFrom (bit : nat) (n r : Z) : Z :=
  match bit with
  | O => r
  | S bit' =>
      let c := r + 2 ^ Z.of_nat bit' in
      if c * c * c <=? n then cubeRootFrom bit' n c
      else cubeRootFrom bit' n r
  end.

Definition initialHash : list Z :=
  map (fun p => trunc (Z.sqrt (p * 2 ^ (2 * w))))
      (firstn 8 (primesBelow 20)).
Definition roundConstants : list Z :=
  map (fun p => trunc (cubeRootFrom (Z.to_nat w + 4) (p * 2 ^ (3 * w)) 0))
      (firstn (roundCount v) (primesBelow 410)).

(** Padding: the byte 0x80, zero bytes up to the last [w/4] bytes of a
    block of [2*w] bytes, and the bit length there, big-endian. *)
Definition bigEndian (count : nat) (x : Z) : list Z :=
  map (fun i => Z.land (Z.shiftr x (8 * Z.of_nat (count - 1 - i))) 255)
      (seq 0 count).
Definition blockBytes : nat := Z.to_nat (2 * w).
Definition lengthBytes : nat := Z.to_nat (w / 4).
Definition pad (msg : list Z) : list Z :=
  let used := ((length msg + 1 + lengthBytes) mod blockBytes)%nat in
  let zeros := ((blockBytes - used) mod blockBytes)%nat in
  (msg ++ [128] ++ repeat 0 zeros
       ++ bigEndian lengthBytes (8 * Z.of_nat (length msg)))%list.

Definition fromBigEndian (bytes : list Z) : Z :=
  fold_left (fun acc b => acc * 256 + b) bytes 0.

Fixpoint chunks (fuel size : nat) (l : list Z) : list (list Z) :=
  match fuel, l with
  | O, _ | _, [] => []
  | S fuel', _ => firstn size l :: chunks fuel' size (skipn size l)
  end.

Definition wordsOf (bytes : list Z) : list Z :=
  map fromBigEndian (chunks (length bytes) (Z.to_nat (w / 8)) bytes).

(** The message schedule as a window of the last sixteen words. *)
Definition nextWindow (win : list Z) : list Z :=
  let new := plus (plus (mix2s (smallSigma1 v) (nth 14 win 0)) (nth 9 win 0))
                  (plus (mix2s (smallSigma0 v) (nth 1 win 0)) (nth 0 win 0)) in
  (tl win ++ [new])%list.

Definition round (k wt : Z) (st : list Z) : list Z :=
  match st with
  | [a; b; c; d; e; f; g; h] =>
      let t1 := plus (plus (plus h (mix3 (bigSigma1 v) e))
                           (plus (ch e f g) k)) wt in
      let t2 := plus (mix3 (bigSigma0 v) a) (maj a b c) in
      [plus t1 t2; a; b; c; plus d t1; e; f; g]
  | _ => st
  end.

Fixpoint rounds (ks : list Z) (win st : list Z) : list Z :=
  match ks with
  | [] => st
  | k :: ks' => rounds ks' (nextWindow win) (round k (hd 0 win) st)
  end.

Definition compress (ks : list Z) (h : list Z) (block : list Z) : list Z :=
  map (fun p => plus (fst p) (snd p))
      (combine h (rounds ks (wordsOf block) h)).

Definition digest (ks h0 : list Z) (msg : list Z) : list Z :=
  let padded := pad msg in
  let h := fold_left (compress ks) (chunks (length padded) blockBytes padded) h0 in
  flat_map (bigEndian (Z.to_nat (w / 8))) h.

End Variant.

Definition toByte (z : Z) : byte :=
  match Byte.of_N (Z.to_N z) with
  | Some b => b
  | None => x00
  end.

Definition K256 : list Z := Eval vm_compute in roundConstants v256.
Definition H256 : list Z := Eval vm_compute in initialHash v256.
Definition K512 : list Z := Eval vm_compute in roundConstants v512.
Definition H512 : list Z := Eval vm_compute in initialHash v512.

Definition Sum256 (data : list byte) : list byte :=
  map toByte (digest v256 K256 H256 (map (fun b => Z.of_N (Byte.to_N b)) data)).
Definition Sum512 (data : list byte) : list byte :=
  map toByte (digest v512 K512 H512 (map (fun b => Z.of_N (Byte.to_N b)) data)).

End sha2.

Module url.

(** [strings.IndexByte] and [strings.LastIndexByte] *)
Fixpoint IndexByte (s : string) (c : ascii) : option nat :=
  match s with
  | EmptyString => None
  | String x s' =>
      if Ascii.eqb x c then Some O
      else option_map S (IndexByte s' c)
  end.

Fixpoint LastIndexByte (s : string) (c : ascii) : option nat :=
  match s with
  | EmptyString => None
  | String x s' =>
      match LastIndexByte s' c with
      | Some i => Some (S i)
      | None => if Ascii.eqb x c then Some O else None
      end
  end.

Definition from (i : nat) (s : string) : string :=
  substring i (String.length s - i) s.

(** [strings.Cut] at a one-byte separator: the text before the first
    occurrence and the text after it, or the whole text and nothing. *)
Definition Cut (s : string) (sep : ascii) : string * string :=
  match IndexByte s sep with
  | Some i => (substring 0 i s, from (S i) s)
  | None => (s, "")
  end.

Definition between (lo hi c : ascii) : bool :=
  (nat_of_ascii lo <=? nat_of_ascii c)%nat && (nat_of_ascii c <=? nat_of_ascii hi)%nat.

Definition isLetter (c : ascii) : bool := between "a" "z" c || between "A" "Z" c.
Definition isDigit (c : ascii) : bool := between "0" "9" c.

Definition lowerByte (c : ascii) : ascii :=
  if between "A" "Z" c then ascii_of_nat (nat_of_ascii c + 32) else c.

(** [strings.ToLower], on the bytes a scheme can hold *)
Fixpoint ToLower (s : string) : string :=
  match s with
  | EmptyString => EmptyString
  | String c s' => String (lowerByte c) (ToLower s')
  end.

Fixpoint allBytes (p : ascii -> bool) (s : string) : bool :=
  match s with
  | EmptyString => true
  | String c s' => p c && allBytes p s'
  end.

(** [stringContainsCTLByte]: a byte below the space or the byte 0x7f *)
Definition stringContainsCTLByte (s : string) : bool :=
  negb (allBytes (fun c => negb ((nat_of_ascii c <? 32)%nat
                                 || (nat_of_ascii c =? 127)%nat)) s).

(** [getScheme]: the loop over the bytes of [rawURL]; [i] is the index of
    the first byte of [rest]. *)
Fixpoint getSchemeAt (rawURL : string) (i : nat) (rest : string)
  : error + (string * string) :=
  match rest with
  | EmptyString => inr ("", rawURL)
  | String c rest' =>
      if isLetter c then
        getSchemeAt rawURL (S i) rest'
      else if isDigit c || Ascii.eqb c "+" || Ascii.eqb c "-" || Ascii.eqb c "." then
        if Nat.eqb i 0 then inr ("", rawURL)
        else getSchemeAt rawURL (S i) rest'
      else if Ascii.eqb c ":" then
        if Nat.eqb i 0 then inl (LibError "missing protocol scheme")
        else inr (substring 0 i rawURL, rest')
      else
        inr ("", rawURL)
  end.

Definition getScheme (rawURL : string) : error + (string * string) :=
  getSchemeAt rawURL 0 rawURL.

Definition doubleQuote : ascii := ascii_of_nat 34.
Definition quoted (s : string) : string :=
  String doubleQuote (s ++ String doubleQuote "").

(** [validOptionalPort] *)
Definition validOptionalPort (port : string) : bool :=
  match port with
  | EmptyString => true
  | String c digits => Ascii.eqb c ":" && allBytes isDigit digits
  end.

(** [parseHost], without IPv6 literals and percent-escapes *)
Definition parseHost (host : string) : error + string :=
  match LastIndexByte host ":" with
  | Some i =>
      let colonPort := from i host in
      if validOptionalPort colonPort then inr host
      else inl (LibError ("invalid port " ++ quoted colonPort ++ " after host"))
  | None => inr host
  end.

(** [parseAuthority]: the user information up to the last [@], kept as it
    is written, and the host after it *)
Definition parseAuthority (authority : string) : error + (option string * string) :=
  match LastIndexByte authority "@" with
  | None =>
      match parseHost authority with
      | inl e => inl e
      | inr host => inr (None, host)
      end
  | Some i =>
      match parseHost (from (S i) authority) with
      | inl e => inl e
      | inr host => inr (Some (substring 0 i authority), host)
      end
  end.

(** [parse(rawURL, false)] *)
Definition parse (rawURL : string) : error + URL :=
  if stringContainsCTLByte rawURL then
    inl (LibError "net/url: invalid control character in URL")
  else if rawURL =? "*" then
    inr (mkURL "" "" None "" "*" "" "")
  else
    match getScheme rawURL with
    | inl e => inl e
    | inr (scheme, rest) =>
        let scheme := ToLower scheme in
        let '(rest, rawQuery) := Cut rest "?" in
        let rooted := strings.HasPrefix rest "/" in
        if negb rooted && negb (scheme =? "") then
          inr (mkURL scheme rest None "" "" rawQuery "")
        else if negb rooted
                && match IndexByte (fst (Cut rest "/")) ":" with
                   | Some _ => true
                   | None => false
                   end then
          inl (LibError "first path segment in URL cannot contain colon")
        else if (negb (scheme =? "") || negb (strings.HasPrefix rest "///"))
                && strings.HasPrefix rest "//" then
          let authority := from 2 rest in
          let '(authority, rest) :=
            match IndexByte authority "/" with
            | Some i => (substring 0 i authority, from i authority)
            | None => (authority, "")
            end in
          match parseAuthority authority with
          | inl e => inl e
          | inr (user, host) => inr (mkURL scheme "" user host rest rawQuery "")
          end
        else
          inr (mkURL scheme "" None "" rest rawQuery "")
    end.

(** [url.Parse]: the fragment is cut off first.  The [url.Error] wrapper
    around a failure (operation and quoted input) is not rendered, and
    percent-escapes are neither checked nor decoded. *)
Definition Parse (rawURL : string) : error + URL :=
  let '(u, frag) := Cut rawURL "#" in
  match parse u with
  | inl e => inl e
  | inr url =>
      inr (mkURL (Scheme url) (Opaque url) (User url) (Host url) (Path url)
                 (RawQuery url) frag)
  end.

End url.

(** Sample documents, as the trees [html.Parse] builds for them. *)

Definition text (s : string) : Node := mkNode TextNode s [] [].
Definition element (tag : string) (attr : list Attribute) (children : list Node) : Node :=
  mkNode ElementNode tag attr children.
Definition attribute (key val : string) : Attribute := mkAttribute "" key val.
Definition document (children : list Node) : Node := mkNode DocumentNode "" [] children.
Definition page (head body : list Node) : Node :=
  document [mkNode DoctypeNode "html" [] [];
            element "html" [] [element "head" [] head; element "body" [] body]].

Definition newline : string := String (ascii_of_nat 10) "".

(** The two documents of the package documentation. *)
Definition firstBody : string :=
  newline ++ "            // Some content to hash." ++ newline ++ "        ".
Definition secondBody : string :=
  newline ++ "            // Some more content to hash." ++ newline ++ "        ".

Definition indexHTML : Node :=
  page
    [element "script"
       [attribute "src" "https://challenges.cloudflare.com/turnstile/v0/api.js";
        attribute "async" ""; attribute "defer" ""] [];
     element "script" [] [text firstBody]]
    [element "button" [attribute "onclick" "alert('Hello')"] [text "Hello"];
     element "script" [] [text secondBody]].

Definition justSelfHTML : Node :=
  page [element "script" [attribute "src" "foo.js"] []]
       [text "I just need scripts from 'self'"].

(** Documents with one script element each: an insecure source, a
    protocol-relative source, two [src] attributes, no content, an element
    as content, and a source next to content. *)
Definition insecureHTML : Node :=
  page [element "script" [attribute "src" "http://example.com/a.js"] []] [].
Definition protocolRelativeHTML : Node :=
  page [element "script" [attribute "src" "//cdn.example.com/x.js"] []] [].
Definition twoSrcHTML : Node :=
  page [element "script"
          [attribute "src" "https://cdn.example.com/a.js";
           attribute "src" "b.js"] []] [].
Definition emptyScriptHTML : Node :=
  page [element "script" [] []] [].
Definition nestedScriptHTML : Node :=
  page [element "script" [] [element "b" [] []]] [].
Definition srcAndBodyHTML : Node :=
  page [element "script" [attribute "src" "foo.js"] [text "ignored()"]] [].

Definition sampleDisk : list (string * Node) :=
  [("index.html", indexHTML);
   ("just-self.html", justSelfHTML);
   ("insecure.html", insecureHTML);
   ("protocol-relative.html", protocolRelativeHTML);
   ("two-src.html", twoSrcHTML);
   ("empty-script.html", emptyScriptHTML)].

Fixpoint lookupFile (disk : list (string * Node)) (path : string) : option Node :=
  match disk with
  | [] => None
  | (p, doc) :: disk' => if p =? path then Some doc else lookupFile disk' path
  end.

(** The reference instance.  An open file is the document it holds. *)
Definition goLibs : Collaborators := {|
  sha512_Sum := sha2.Sum512;
  sha256_Sum := sha2.Sum256;
  url_Parse := url.Parse;
  File := Node;
  os_Open := fun path =>
    match lookupFile sampleDisk path with
    | Some doc => inr doc
    | None => inl (LibError ("open " ++ path ++ ": no such file or directory"))
    end;
  html_Parse := fun f => inr f
|}.

(** *** The messages of the errors *)

(** [err.Error()]: the text each [fmt.Errorf] call formats.  [%v] of a
    [HashAlgorithm] is its number, [%v] of a slice of errors their messages
    between brackets. *)
Fixpoint Error (err : error) : string :=
  match err with
  | LibError msg => msg
  | ErrParseSrc srcString err' =>
      "failed to parse script src " ++ srcString ++ ": " ++ Error err'
  | ErrInsecureSrc srcString => "insecure script src: " ++ srcString
  | ErrUnknownSrc srcString => "failed to understand script src " ++ srcString
  | ErrSecondSrc val => "script tag had a second src attribute: " ++ val
  | ErrNoContent => "script tag had no src attribute and no content"
  | ErrNotText => "script tag had a child that was not a text node"
  | ErrMultipleChildren => "script tag had multiple children"
  | ErrInvalidHashAlgorithm alg =>
      "invalid HashAlgorithm value from DefaultHashAlgorithm: "
      ++ DecimalString.NilZero.string_of_uint (N.to_uint (Byte.to_N alg))
  | ErrParseHTML path err' =>
      "failed to parse " ++ path ++ " as HTML: " ++ Error err'
  | ErrProcess path err' => "failed to process " ++ path ++ ": " ++ Error err'
  | ErrMultiple errors =>
      "multiple errors: [" ++ String.concat " " (map Error errors) ++ "]"
  end.

(** *** The entry point over a pattern *)

(** [filepath.Glob] *)
Class Globbing : Type := {
  filepath_Glob : string -> error + list string
}.

(** [func ScriptSrcFromHTMLFileGlob(pattern string, includeEventHandlers bool) ( *ScriptSrc, error )] *)
Definition ScriptSrcFromHTMLFileGlob {libs : Collaborators} {glob : Globbing}
           (pattern : string) (includeEventHandlers : bool)
  : outcome (option ScriptSrc * option error) :=
  match filepath_Glob pattern with
  | inl err => Returns (None, Some err)
  | inr files => ScriptSrcFromHTMLFiles files includeEventHandlers
  end.

(** *** The command ([package main]) *)

(** [text/template]: parsing a file or a named text, and executing a
    template on the policy, which gives the text written to the standard
    output and the error that stopped it, if any. *)
Class Templates : Type := {
  Template : Type;
  template_ParseFiles : string -> error + Template;
  template_Parse : string -> string -> error + Template;
  template_Execute : Template -> ScriptSrc -> string * option error
}.

Module cli.

(** What the command writes to the standard output: a line of
    [fmt.Println], the help text of the second [fmt.Println] of [--help],
    or the text of a template. *)
Inductive output : Type :=
| Line (s : string)
| HelpText
| Written (s : string).

(** A run of the command: the standard output, the lines of the standard
    error, and the exit status. *)
Record Run : Type := mkRun {
  stdout : list output;
  stderr : list string;
  exitCode : nat
}.

(** The variables of [main] the argument loop sets. *)
Record Options : Type := mkOptions {
  verbose : bool;
  cspTemplateFile : string;
  cspTemplateString : string;
  hashAlgorithm : HashAlgorithm;
  hashAlgorithmSet : bool
}.

Definition defaults : Options := mkOptions true "" "" Sha512 false.

(** How the argument loop ends: [return] after the help, [exitWithError]
    with its line, or [break argParser] with the arguments left. *)
Inductive parsed : Type :=
| Help
| Exit (msg : string)
| Args (o : Options) (paths : list string).

Definition usage (program : string) : string :=
  "Usage: " ++ program
  ++ " [--quiet] [--sha256 | --sha512] [--csp-template-file template-file | --csp-template-string template-string] <html file>...".

(** The loop labelled [argParser]. *)
Fixpoint argParser (args : list string) (o : Options) : parsed :=
  match args with
  | [] => Args o []
  | arg :: rest =>
      if (arg =? "--help") || (arg =? "-h") then
        Help
      else if arg =? "--quiet" then
        argParser rest
          (mkOptions false (cspTemplateFile o) (cspTemplateString o)
                     (hashAlgorithm o) (hashAlgorithmSet o))
      else if arg =? "--sha512" then
        if hashAlgorithmSet o && negb (Byte.eqb (hashAlgorithm o) Sha512) then
          Exit "You must specify only one hash algorithm"
        else
          argParser rest
            (mkOptions (verbose o) (cspTemplateFile o) (cspTemplateString o)
                       Sha512 true)
      else if arg =? "--sha256" then
        if hashAlgorithmSet o && negb (Byte.eqb (hashAlgorithm o) Sha256) then
          Exit "You must specify only one hash algorithm"
        else
          argParser rest
            (mkOptions (verbose o) (cspTemplateFile o) (cspTemplateString o)
                       Sha256 true)
      else if arg =? "--csp-template-file" then
        match rest with
        | [] => Exit "--csp-template-file expected a template filepath"
        | value :: rest' =>
            argParser rest'
              (mkOptions (verbose o) value (cspTemplateString o)
                         (hashAlgorithm o) (hashAlgorithmSet o))
        end
      else if arg =? "--csp-template-string" then
        match rest with
        | [] => Exit "--csp-template-string expected a template string"
        | value :: rest' =>
            argParser rest'
              (mkOptions (verbose o) (cspTemplateFile o) value
                         (hashAlgorithm o) (hashAlgorithmSet o))
        end
      else if strings.HasPrefix arg "--" then
        Exit ("Unknown argument: " ++ arg)
      else
        Args o args
  end.

Section Main.

Context {libs : Collaborators} {templates : Templates}.

(** The loop of [main] over the paths, with [errored] and the lines it
    writes to the standard error. *)
Fixpoint processPaths (verbose : bool) (paths : list string)
         (errored : bool) (log : list string) : M (bool * list string) :=
  match paths with
  | [] => ret (errored, log)
  | path :: paths' =>
      let log := if verbose then (log ++ [("> " ++ path)%string])%list else log in
      err <- AddFromHTMLFile path true ;;
      match err with
      | Some e => processPaths verbose paths' true (log ++ [Error e])%list
      | None => processPaths verbose paths' errored log
      end
  end.

(** The two [if] statements of [main] that set [cspTemplate]: the line
    [exitWithError] writes, or the template, if one was asked for. *)
Definition chooseTemplate (o : Options) : string + option Template :=
  let fromFile : string + option Template :=
    if cspTemplateFile o =? "" then inr None
    else match template_ParseFiles (cspTemplateFile o) with
         | inl err =>
             inl ("Failed to parse CSP template from " ++ cspTemplateFile o
                  ++ " : " ++ Error err)
         | inr t => inr (Some t)
         end in
  match fromFile with
  | inl msg => inl msg
  | inr cspTemplate =>
      if cspTemplateString o =? "" then inr cspTemplate
      else match cspTemplate with
           | Some _ =>
               inl "You may only specify one of --csp-template-file and --csp-template-string"
           | None =>
               match template_Parse "csp-template-string" (cspTemplateString o) with
               | inl err => inl ("Failed to parse CSP template: " ++ Error err)
               | inr t => inr (Some t)
               end
           end
  end.

(** The end of [main], once every path is processed without an error. *)
Definition report (o : Options) (log : list string) (scriptSrc : ScriptSrc) : Run :=
  match chooseTemplate o with
  | inl msg => mkRun [] (log ++ [msg])%list 1
  | inr None => mkRun [Line (ScriptSrc_String scriptSrc)] log 0
  | inr (Some cspTemplate) =>
      match template_Execute cspTemplate scriptSrc with
      | (written, Some err) =>
          mkRun [Written written]
                (log ++ [("Failed to execute CSP template: " ++ Error err)%string])%list 1
      | (written, None) => mkRun [Written written] log 0
      end
  end.

(** The policy [main] starts from. *)
Definition initial (o : Options) : ScriptSrc :=
  mkScriptSrc false [] (hashAlgorithm o) [] [].

(** [func main()], with [os.Args[0]] and [os.Args[1:]]. *)
Definition main (program : string) (args : list string) : outcome Run :=
  match argParser args defaults with
  | Help => Returns (mkRun [Line (usage program); HelpText] [] 0)
  | Exit msg => Returns (mkRun [] [msg] 1)
  | Args o paths =>
      match processPaths (verbose o) paths false [] (initial o) with
      | Returns ((errored, log), scriptSrc) =>
          if errored then Returns (mkRun [] log 1)
          else Returns (report o log scriptSrc)
      | Panics v => Panics v
      end
  end.

End Main.

End cli.

(** *** Vocabulary of the further statements *)

(** [t] is [s] with entries appended: the algorithm and [Others] are the
    same, [Self] is not taken back, [Hashes] and [Hosts] of [s] are the
    beginning of those of [t]. *)
Definition extends (s t : ScriptSrc) : Prop :=
  DefaultHashAlgorithm t = DefaultHashAlgorithm s
  /\ Others t = Others s
  /\ (Self s = true -> Self t = true)
  /\ (exists more, Hashes t = (Hashes s ++ more)%list)
  /\ (exists more, Hosts t = (Hosts s ++ more)%list).

(** [t] allows all that [s] allows, under the same algorithm. *)
Definition covered (s t : ScriptSrc) : Prop :=
  DefaultHashAlgorithm t = DefaultHashAlgorithm s
  /\ (Self s = true -> Self t = true)
  /\ incl (Hashes s) (Hashes t)
  /\ incl (Hosts s) (Hosts t).

(** [t] is [s] up to hashes that only [t] has. *)
Definition sameButHashes (s t : ScriptSrc) : Prop :=
  Self t = Self s /\ Hosts t = Hosts s /\ Others t = Others s
  /\ DefaultHashAlgorithm t = DefaultHashAlgorithm s
  /\ incl (Hashes s) (Hashes t).

(** A computation that keeps a property of the policy whenever it returns. *)
Definition keeps {A : Type} (I : ScriptSrc -> Prop) (c : M A) : Prop :=
  forall s r s', I s -> c s = Returns (r, s') -> I s'.

(** Every hash carries the name of an algorithm and every host the scheme
    [https]. *)
Definition entriesWellFormed (s : ScriptSrc) : Prop :=
  Forall (fun hash => String.prefix "sha512-" hash = true
                      \/ String.prefix "sha256-" hash = true) (Hashes s)
  /\ Forall (fun host => String.prefix "https://" host = true) (Hosts s).

(** The policies of the entry points of the package: the first algorithm,
    no other token, hashes of that algorithm and [https] hosts only. *)
Definition libraryPolicy (s : ScriptSrc) : Prop :=
  DefaultHashAlgorithm s = Sha512
  /\ Others s = []
  /\ Forall (fun hash => String.prefix "sha512-" hash = true) (Hashes s)
  /\ Forall (fun host => String.prefix "https://" host = true) (Hosts s).


(** A tree without a script element. *)
Fixpoint scriptFree (n : Node) : bool :=
  match n with
  | mkNode type data _ children =>
      negb (NodeType_eqb type ElementNode && (data =? "script"))
      && forallb scriptFree children
  end.

(** A tree without an attribute whose name begins with [on]. *)
Fixpoint handlerFree (n : Node) : bool :=
  match n with
  | mkNode _ _ attr children =>
      forallb (fun a => negb (strings.HasPrefix (Key a) "on")) attr
      && forallb handlerFree children
  end.

(** A computation that only appends to the policy. *)
Definition grows {A : Type} (c : M A) : Prop :=
  forall s r s', c s = Returns (r, s') -> extends s s'.

(** A computation that, run again on a policy that covers what a run of it
    left, returns the same and changes nothing. *)
Definition absorbs {A : Type} (c : M A) : Prop :=
  forall s r s1 t,
    c s = Returns (r, s1) -> covered s1 t -> c t = Returns (r, t).

(** [c2] does what [c1] does and may add hashes. *)
Definition addsOnlyHashes {A : Type} (c1 c2 : M A) : Prop :=
  forall s t r s',
    supported (DefaultHashAlgorithm s) -> sameButHashes s t ->
    c1 s = Returns (r, s') ->
    exists t', c2 t = Returns (r, t') /\ sameButHashes s' t'.

(** Further samples: a button with a handler and the hash of the handler,
    and the policy of the two documents of the package documentation. *)
Definition buttonHTML : Node :=
  element "button" [attribute "onclick" "alert('Hello')"] [text "Hello"].
Definition helloHash : string :=
  "sha512-Vj66Rmbqm1b9qQrkUNDR0OzPiTjQZ9Ayf25jSMRKvOgNlqnzNa8cn35DOErR7+AyOIxMT/ZYNJic15+Rj6lbkg==".
Definition documentationPolicy : ScriptSrc :=
  mkScriptSrc true
    ["sha512-nbfZ9uoH92o+408nb2dlJhQJZLFdbJjY4ntbG7YAE23fMsuuEg261l9jm2HCns29WgvqGsjhO6F5bLDlIdSSMw==";
     helloHash;
     "sha512-X+aeR+9dEmqY9SqucXOUgHMKCI8yYCIBSgAOUxQ41fJBfPlM2nLA24g8XIxq1XJNuU+7YcvnrSkKoL5u4QVj3w=="]
    Sha512 ["https://challenges.cloudflare.com"] [].

(** *** Reference instances of the further libraries *)

Module glob.

(** [filepath.Match] for patterns of plain characters, [*] and [?]
    (classes and escapes are not in this instance). *)
Fixpoint Match (pattern name : string) : bool :=
  match pattern with
  | EmptyString => name =? ""
  | String p pattern' =>
      if Ascii.eqb p "*" then
        (fix star (n : string) : bool :=
           Match pattern' n
           || match n with
              | EmptyString => false
              | String c n' => negb (Ascii.eqb c "/") && star n'
              end) name
      else
        match name with
        | EmptyString => false
        | String c name' =>
            (if Ascii.eqb p "?" then negb (Ascii.eqb c "/") else Ascii.eqb p c)
            && Match pattern' name'
        end
  end.

(** The names of the sample directory, in the order [filepath.Glob] lists
    them. *)
Definition sampleNames : list string :=
  ["empty-script.html"; "index.html"; "insecure.html"; "just-self.html";
   "protocol-relative.html"; "two-src.html"].

End glob.

Definition goGlob : Globbing := {|
  filepath_Glob := fun pattern => inr (filter (glob.Match pattern) glob.sampleNames)
|}.

Module template.

(** A template of plain text and the action [{{ .ScriptSrc }}]. *)
Inductive piece : Type :=
| Plain (c : ascii)
| PolicyAction.

Definition action : string := "{{ .ScriptSrc }}".

(** Parsing: the action where it stands, an error at any other [{{]. *)
Fixpoint parseFrom (fuel : nat) (text : string) : error + list piece :=
  match fuel with
  | O => inr []
  | S fuel' =>
      match text with
      | EmptyString => inr []
      | String c text' =>
          if String.prefix action text then
            match parseFrom fuel' (url.from (String.length action) text) with
            | inl e => inl e
            | inr pieces => inr (PolicyAction :: pieces)
            end
          else if String.prefix "{{" text then
            inl (LibError "template: unsupported action")
          else
            match parseFrom fuel' text' with
            | inl e => inl e
            | inr pieces => inr (Plain c :: pieces)
            end
      end
  end.

Definition Parse (text : string) : error + list piece :=
  parseFrom (S (String.length text)) text.

(** Executing: the plain text as it is, and for the action the policy as
    its [String] method formats it. *)
Fixpoint Execute (pieces : list piece) (scriptSrc : ScriptSrc) : string :=
  match pieces with
  | [] => ""
  | Plain c :: pieces' => String c (Execute pieces' scriptSrc)
  | PolicyAction :: pieces' =>
      ScriptSrc_String scriptSrc ++ Execute pieces' scriptSrc
  end.

End template.

(** Templates are read from no file in this instance. *)
Definition goTemplates : Templates := {|
  Template := list template.piece;
  template_ParseFiles := fun file =>
    inl (LibError ("open " ++ file ++ ": no such file or directory"));
  template_Parse := fun _ text => template.Parse text;
  template_Execute := fun t scriptSrc => (template.Execute t scriptSrc, None)
|}.

(** ** Part II: theorems *)

(** *** Strings and slices *)

Lemma append_assoc (a b c : string) : (a ++ b) ++ c = a ++ (b ++ c).
Proof.
  induction a as [|x a IH]; simpl; [reflexivity | now rewrite IH].
Qed.

Lemma Join_builder (sep : string) (rest : list string) (e : string) :
  fold_left (fun b s => b ++ sep ++ s) rest e
  = match rest with
    | [] => e
    | _ => e ++ sep ++ String.concat sep rest
    end.
Proof.
  revert e; induction rest as [|x rest IH]; intro e; simpl.
  - reflexivity.
  - rewrite IH. destruct rest as [|y rest]; [reflexivity|].
    now rewrite !append_assoc.
Qed.

(** [strings.Join] is the concatenation of the elements with the separator
    between every two neighbours. *)
Lemma Join_concat (elems : list string) (sep : string) :
  strings.Join elems sep = String.concat sep elems.
Proof.
  destruct elems as [|e [|x rest]]; try reflexivity.
  unfold strings.Join. now rewrite Join_builder.
Qed.

Lemma append_loop {A B : Type} (f : A -> B) (l : list A) (acc : list B) :
  fold_left (fun acc x => (acc ++ [f x])%list) l acc = (acc ++ map f l)%list.
Proof.
  revert acc; induction l as [|x l IH]; intro acc; simpl.
  - now rewrite app_nil_r.
  - now rewrite IH, <- app_assoc.
Qed.

Lemma Contains_In (l : list string) (v : string) :
  slices.Contains l v = true <-> In v l.
Proof.
  unfold slices.Contains. rewrite existsb_exists. split.
  - intros (x & Hin & Heq). apply String.eqb_eq in Heq. now subst.
  - intro Hin. exists v. split; [assumption | apply String.eqb_refl].
Qed.

Lemma Contains_not_In (l : list string) (v : string) :
  slices.Contains l v = false <-> ~ In v l.
Proof.
  rewrite <- Contains_In. destruct (slices.Contains l v); split; congruence.
Qed.

Lemma count_occ_append_absent (l : list string) (v : string) :
  ~ In v l -> count_occ string_dec (l ++ [v])%list v = 1.
Proof.
  intro Hnot. rewrite count_occ_app.
  apply (count_occ_not_In string_dec) in Hnot. rewrite Hnot. simpl.
  destruct (string_dec v v); [reflexivity | congruence].
Qed.

Lemma count_occ_present (l : list string) (v : string) :
  In v l -> count_occ string_dec l v <= 1 -> count_occ string_dec l v = 1.
Proof.
  intros Hin Hle. apply (count_occ_In string_dec) in Hin. lia.
Qed.

(** *** Formatting *)

Section Theorems.

Context {libs : Collaborators}.

(** C3. [String] joins with single spaces, in this order, the token
    ['self'] when [Self] holds, every entry of [Hashes] between single
    quotes, every entry of [Hosts] and every entry of [Others], each
    sequence in its own order; a policy with [Self] false and the three
    sequences empty formats to the empty string. *)
Theorem String_fixed_order :
  (forall scriptSrc : ScriptSrc,
     ScriptSrc_String scriptSrc
     = String.concat " "
         ((if Self scriptSrc then ["'self'"] else [])
            ++ map (fun hash => ("'" ++ hash ++ "'")%string) (Hashes scriptSrc)
            ++ Hosts scriptSrc
            ++ Others scriptSrc)%list)
  /\ (forall alg : HashAlgorithm,
        ScriptSrc_String (mkScriptSrc false [] alg [] []) = "").
Proof.
  split.
  - intro scriptSrc. unfold ScriptSrc_String.
    rewrite Join_concat, append_loop.
    destruct (Self scriptSrc); simpl; now rewrite <- ?app_assoc.
  - intro alg. reflexivity.
Qed.

(** *** Classification of a script source *)

Ltac run := unfold bind, ret, modify, get, panic; simpl.

(** [AddSrc] returns on every input: it has no panic. *)
Lemma AddSrc_returns (srcString : string) (s : ScriptSrc) :
  exists r s', AddSrc srcString s = Returns (r, s').
Proof.
  unfold AddSrc. destruct (url_Parse srcString) as [err|src]; run; eauto.
  destruct (Scheme src =? "http"); eauto.
  destruct (Scheme src =? "https").
  - destruct (negb _); run; eauto.
  - destruct (Scheme src =? ""); eauto.
Qed.

Lemma AddSrc_https (srcString : string) (src : URL) (s : ScriptSrc) :
  url_Parse srcString = inr src -> Scheme src = "https" ->
  AddSrc srcString s
  = Returns (None,
             if slices.Contains (Hosts s) (hostSource src) then s
             else setHosts (Hosts s ++ [hostSource src])%list s).
Proof.
  intros Hparse Hscheme. unfold AddSrc. rewrite Hparse, Hscheme. run.
  now destruct (slices.Contains _ _).
Qed.

Lemma AddSrc_schemeless (srcString : string) (src : URL) (s : ScriptSrc) :
  url_Parse srcString = inr src -> Scheme src = "" ->
  AddSrc srcString s = Returns (None, setSelf true s).
Proof.
  intros Hparse Hscheme. unfold AddSrc. now rewrite Hparse, Hscheme.
Qed.

(** C2. The decision table of [AddSrc]: a string that does not parse gives
    an error that wraps the parse failure; an empty scheme sets [Self] and
    gives no error; [https] appends ["https://"] and the host (with its
    port) to [Hosts] at the end unless it is there already; [http] gives the
    insecure-source error; every other scheme gives the unsupported-source
    error. *)
Theorem AddSrc_decision_table (srcString : string) (s : ScriptSrc) :
  match url_Parse srcString with
  | inl err =>
      AddSrc srcString s = Returns (Some (ErrParseSrc srcString err), s)
  | inr src =>
      (Scheme src = "" ->
       AddSrc srcString s = Returns (None, setSelf true s))
      /\ (Scheme src = "https" ->
          (In (hostSource src) (Hosts s) ->
           AddSrc srcString s = Returns (None, s))
          /\ (~ In (hostSource src) (Hosts s) ->
              AddSrc srcString s
              = Returns (None,
                         setHosts (Hosts s ++ [hostSource src])%list s)))
      /\ (Scheme src = "http" ->
          AddSrc srcString s = Returns (Some (ErrInsecureSrc srcString), s))
      /\ (Scheme src <> "" -> Scheme src <> "https" -> Scheme src <> "http" ->
          AddSrc srcString s = Returns (Some (ErrUnknownSrc srcString), s))
  end.
Proof.
  destruct (url_Parse srcString) as [err|src] eqn:Hparse.
  - unfold AddSrc. now rewrite Hparse.
  - split; [|split; [|split]].
    + intro Hscheme. now apply AddSrc_schemeless with (src := src).
    + intro Hscheme. rewrite (AddSrc_https _ _ s Hparse Hscheme). split.
      * intro Hin. apply Contains_In in Hin. now rewrite Hin.
      * intro Hnot. apply Contains_not_In in Hnot. now rewrite Hnot.
    + intro Hscheme. unfold AddSrc. now rewrite Hparse, Hscheme.
    + intros Hempty Hhttps Hhttp. unfold AddSrc. rewrite Hparse.
      apply String.eqb_neq in Hempty, Hhttps, Hhttp.
      now rewrite Hempty, Hhttps, Hhttp.
Qed.

(** C7. A reference whose scheme is [http] makes [AddSrc] return the
    insecure-source error and leaves the whole policy as it was. *)
Theorem AddSrc_http_rejected (srcString : string) (src : URL) (s : ScriptSrc) :
  url_Parse srcString = inr src -> Scheme src = "http" ->
  exists s',
    AddSrc srcString s = Returns (Some (ErrInsecureSrc srcString), s')
    /\ s' = s
    /\ Self s' = Self s /\ Hosts s' = Hosts s
    /\ Hashes s' = Hashes s /\ Others s' = Others s.
Proof.
  intros Hparse Hscheme. exists s. unfold AddSrc.
  rewrite Hparse, Hscheme. repeat split.
Qed.

(** C10. A reference without a scheme, whatever host it names, makes
    [AddSrc] set [Self], return no error and leave [Hosts] as it was. *)
Theorem AddSrc_schemeless_is_self (srcString : string) (src : URL) (s : ScriptSrc) :
  url_Parse srcString = inr src -> Scheme src = "" ->
  exists s',
    AddSrc srcString s = Returns (None, s')
    /\ Self s' = true
    /\ Hosts s' = Hosts s
    /\ Hashes s' = Hashes s /\ Others s' = Others s.
Proof.
  intros Hparse Hscheme. exists (setSelf true s).
  rewrite (AddSrc_schemeless _ _ s Hparse Hscheme). repeat split.
Qed.

(** *** Inline content *)

Lemma inlineHash_supported (alg : HashAlgorithm) (content : string) :
  supported alg -> exists hash, inlineHash alg content = inr hash.
Proof.
  intros [-> | ->]; simpl; eauto.
Qed.

Lemma AddInline_hash (content hash : string) (s : ScriptSrc) :
  inlineHash (DefaultHashAlgorithm s) content = inr hash ->
  AddInline content s
  = Returns (tt, if slices.Contains (Hashes s) hash then s
                 else setHashes (Hashes s ++ [hash])%list s).
Proof.
  intro Hhash. unfold AddInline. run. rewrite Hhash.
  now destruct (slices.Contains _ _).
Qed.

Lemma AddInline_panics (content : string) (v : error) (s : ScriptSrc) :
  inlineHash (DefaultHashAlgorithm s) content = inl v ->
  AddInline content s = Panics v.
Proof.
  intro Hhash. unfold AddInline. run. now rewrite Hhash.
Qed.

(** C8. Under [Sha512] or [Sha256], [AddInline] makes the token from the
    bytes of the content as they are: the name of the algorithm, a hyphen
    and the padded standard base64 text of the digest of those bytes.  It
    records the token unless it is recorded already, and does not reach the
    panic of the default branch. *)
Theorem AddInline_token (content : string) (s : ScriptSrc) :
  supported (DefaultHashAlgorithm s) ->
  let bytes := list_byte_of_string content in
  let token :=
    if Byte.eqb (DefaultHashAlgorithm s) Sha512
    then "sha512-" ++ base64.EncodeToString (sha512_Sum bytes)
    else "sha256-" ++ base64.EncodeToString (sha256_Sum bytes) in
  string_of_list_byte bytes = content
  /\ AddInline content s
     = Returns (tt, if slices.Contains (Hashes s) token then s
                    else setHashes (Hashes s ++ [token])%list s)
  /\ (forall v, AddInline content s <> Panics v).
Proof.
  intros Halg bytes token.
  assert (Hhash : inlineHash (DefaultHashAlgorithm s) content = inr token).
  { subst token bytes. destruct Halg as [-> | ->]; reflexivity. }
  split; [apply string_of_list_byte_of_string|].
  rewrite (AddInline_hash _ _ _ Hhash). split; [reflexivity | discriminate].
Qed.

(** *** Idempotent insertion *)

(** C4. On a policy that holds a token at most once, [AddInline] with the
    same content a second time changes nothing and the token of the content
    is in [Hashes] exactly once; likewise [AddSrc] with the same [https]
    reference and its entry in [Hosts]. *)
Theorem dedup_idempotent (content srcString : string) (s : ScriptSrc) :
  (forall hash,
     inlineHash (DefaultHashAlgorithm s) content = inr hash ->
     count_occ string_dec (Hashes s) hash <= 1 ->
     exists s1,
       AddInline content s = Returns (tt, s1)
       /\ AddInline content s1 = Returns (tt, s1)
       /\ count_occ string_dec (Hashes s1) hash = 1)
  /\ (forall src,
        url_Parse srcString = inr src -> Scheme src = "https" ->
        count_occ string_dec (Hosts s) (hostSource src) <= 1 ->
        exists s1,
          AddSrc srcString s = Returns (None, s1)
          /\ AddSrc srcString s1 = Returns (None, s1)
          /\ count_occ string_dec (Hosts s1) (hostSource src) = 1).
Proof.
  split.
  - intros hash Hhash Hle.
    destruct (slices.Contains (Hashes s) hash) eqn:Hc.
    + exists s. rewrite (AddInline_hash _ _ _ Hhash), Hc.
      repeat split. apply count_occ_present; [now apply Contains_In | exact Hle].
    + exists (setHashes (Hashes s ++ [hash])%list s).
      rewrite (AddInline_hash _ _ _ Hhash), Hc. split; [reflexivity|].
      assert (Hin : slices.Contains (Hashes s ++ [hash])%list hash = true).
      { apply Contains_In, in_or_app. right. now left. }
      split.
      * rewrite (AddInline_hash _ hash) by exact Hhash. simpl. now rewrite Hin.
      * simpl. apply count_occ_append_absent. now apply Contains_not_In.
  - intros src Hparse Hscheme Hle.
    destruct (slices.Contains (Hosts s) (hostSource src)) eqn:Hc.
    + exists s. rewrite (AddSrc_https _ _ _ Hparse Hscheme), Hc.
      repeat split. apply count_occ_present; [now apply Contains_In | exact Hle].
    + exists (setHosts (Hosts s ++ [hostSource src])%list s).
      rewrite !(AddSrc_https _ _ _ Hparse Hscheme), Hc. split; [reflexivity|].
      assert (Hin : slices.Contains (Hosts s ++ [hostSource src])%list
                                    (hostSource src) = true).
      { apply Contains_In, in_or_app. right. now left. }
      split.
      * simpl. now rewrite Hin.
      * simpl. apply count_occ_append_absent. now apply Contains_not_In.
Qed.

(** *** The walk over a script element *)

Lemma scanSrc_without_src (attrs : list Attribute) (hasSrc : bool) (s : ScriptSrc) :
  filter isSrc attrs = [] -> scanSrc attrs hasSrc s = Returns (inr hasSrc, s).
Proof.
  induction attrs as [|attr attrs IH]; simpl; [reflexivity|].
  unfold isSrc at 1. destruct (Key attr =? "src"); [discriminate | exact IH].
Qed.

Lemma scanSrc_after_src (attrs : list Attribute) (a : Attribute)
      (rest : list Attribute) (s : ScriptSrc) :
  filter isSrc attrs = a :: rest ->
  scanSrc attrs true s = Returns (inl (ErrSecondSrc (Val a)), s).
Proof.
  induction attrs as [|attr attrs IH]; simpl; [discriminate|].
  unfold isSrc at 1. destruct (Key attr =? "src").
  - intro Heq. now injection Heq as -> _.
  - exact IH.
Qed.

(** The loop calls [AddSrc] on the first [src] only, drops what it returns,
    and then either ends or leaves at the second [src]. *)
Lemma scanSrc_first_src (attrs : list Attribute) (a : Attribute)
      (rest : list Attribute) (s : ScriptSrc) :
  filter isSrc attrs = a :: rest ->
  scanSrc attrs false s
  = match AddSrc (Val a) s with
    | Returns (_, s') =>
        match rest with
        | [] => Returns (inr true, s')
        | b :: _ => Returns (inl (ErrSecondSrc (Val b)), s')
        end
    | Panics v => Panics v
    end.
Proof.
  induction attrs as [|attr attrs IH]; simpl; [discriminate|].
  unfold isSrc at 1. destruct (Key attr =? "src"); [|exact IH].
  intro Heq. injection Heq as -> Hrest. unfold bind.
  destruct (AddSrc (Val a) s) as [[r s']|v]; [|reflexivity].
  destruct rest as [|b rest].
  - now apply scanSrc_without_src.
  - now apply (scanSrc_after_src _ b rest).
Qed.

Lemma AddFromHTML_script (attr : list Attribute) (children : list Node)
      (includeEventHandlers : bool) :
  AddFromHTML (mkNode ElementNode "script" attr children) includeEventHandlers
  = (r <- scanSrc attr false ;;
     match r with
     | inl err => ret (Some err)
     | inr true => ret None
     | inr false => addInlineScript children
     end).
Proof. reflexivity. Qed.

Lemma isScript_inv (n : Node) :
  isScript n -> n = mkNode ElementNode "script" (Attr n) (Children n).
Proof.
  destruct n as [t d a cs]. unfold isScript. simpl. now intros [-> ->].
Qed.

(** C1. On a script element with exactly one [src] attribute the walk calls
    [AddSrc] with the value of the attribute, on the policy as it stands;
    when that call returns an error, the walk of the element still returns
    no error: the error is dropped. *)
Theorem AddFromHTML_drops_src_error (n : Node) (a : Attribute)
        (includeEventHandlers : bool) (s s' : ScriptSrc) (e : error) :
  isScript n -> srcAttributes n = [a] ->
  AddSrc (Val a) s = Returns (Some e, s') ->
  AddFromHTML n includeEventHandlers s = Returns (None, s').
Proof.
  intros Hscript Hsrc Hadd. rewrite (isScript_inv n Hscript).
  rewrite AddFromHTML_script. unfold bind.
  rewrite (scanSrc_first_src _ a [] s Hsrc), Hadd. reflexivity.
Qed.

(** With one [src] the walk is the call of [AddSrc] with the result
    replaced by [nil]; the children are not looked at. *)
Lemma AddFromHTML_one_src (n : Node) (a : Attribute)
      (includeEventHandlers : bool) (s : ScriptSrc) :
  isScript n -> srcAttributes n = [a] ->
  AddFromHTML n includeEventHandlers s = (AddSrc (Val a) ;; ret None) s.
Proof.
  intros Hscript Hsrc. rewrite (isScript_inv n Hscript).
  rewrite AddFromHTML_script. unfold bind.
  rewrite (scanSrc_first_src _ a [] s Hsrc).
  now destruct (AddSrc (Val a) s) as [[r s']|v].
Qed.

(** C9. On a script element with more than one [src] attribute the walk
    returns the error for the second [src] on the policy that [AddSrc] left
    for the first one: [Self] is set when the first value has no scheme, and
    its host is in [Hosts] when its scheme is [https]. *)
Theorem AddFromHTML_second_src_after_first (n : Node) (a1 a2 : Attribute)
        (rest : list Attribute) (includeEventHandlers : bool) (s : ScriptSrc) :
  isScript n -> srcAttributes n = a1 :: a2 :: rest ->
  exists r s',
    AddSrc (Val a1) s = Returns (r, s')
    /\ AddFromHTML n includeEventHandlers s
       = Returns (Some (ErrSecondSrc (Val a2)), s')
    /\ (forall src, url_Parse (Val a1) = inr src ->
          (Scheme src = "" -> Self s' = true)
          /\ (Scheme src = "https" -> In (hostSource src) (Hosts s'))).
Proof.
  intros Hscript Hsrc.
  destruct (AddSrc_returns (Val a1) s) as (r & s' & Hadd).
  exists r, s'. split; [exact Hadd|]. split.
  - rewrite (isScript_inv n Hscript), AddFromHTML_script. unfold bind.
    now rewrite (scanSrc_first_src _ a1 (a2 :: rest) s Hsrc), Hadd.
  - intros src Hparse. split; intro Hscheme.
    + rewrite (AddSrc_schemeless _ _ s Hparse Hscheme) in Hadd.
      now injection Hadd as _ <-.
    + rewrite (AddSrc_https _ _ s Hparse Hscheme) in Hadd.
      injection Hadd as _ <-.
      destruct (slices.Contains (Hosts s) (hostSource src)) eqn:Hc.
      * now apply Contains_In.
      * simpl. apply in_or_app. right. now left.
Qed.

(** C5. On a script element without a [src] attribute the walk wants
    exactly one child, a text node without children.  Then it is the call
    of [AddInline] with the text of that node and nothing more; in every
    other case it returns one of the three invalid-inline-script errors and
    leaves the policy as it was.  With no child at all it fails. *)
Theorem AddFromHTML_inline_script (n : Node) (includeEventHandlers : bool)
        (s : ScriptSrc) :
  isScript n -> srcAttributes n = [] ->
  match inlineContent n with
  | Some content =>
      AddFromHTML n includeEventHandlers s = (AddInline content ;; ret None) s
  | None =>
      exists e, invalidInlineScript e
                /\ AddFromHTML n includeEventHandlers s = Returns (Some e, s)
  end
  /\ (Children n = [] ->
      AddFromHTML n includeEventHandlers s = Returns (Some ErrNoContent, s)).
Proof.
  destruct n as [t d attr children]. unfold isScript, srcAttributes, inlineContent.
  cbn [NType Data Attr Children]. intros [-> ->] Hsrc.
  assert (Hwalk : AddFromHTML (mkNode ElementNode "script" attr children)
                              includeEventHandlers s
                  = addInlineScript children s).
  { rewrite AddFromHTML_script. unfold bind.
    now rewrite (scanSrc_without_src _ false s Hsrc). }
  rewrite Hwalk. unfold invalidInlineScript. split.
  - destruct children as [|[ct cd ca ccs] siblings]; simpl.
    + eauto.
    + destruct ct; simpl; eauto 6;
        destruct siblings; simpl; eauto 6;
        destruct ccs; simpl; eauto 6.
  - now intros ->.
Qed.

(** *** Policies keep their invariant *)

Lemma preserves_ret {A : Type} (a : A) : preserves (ret a).
Proof. intros s Hs. exists a, s. now split. Qed.

Lemma preserves_bind {A B : Type} (c : M A) (k : A -> M B) :
  preserves c -> (forall a, preserves (k a)) -> preserves (bind c k).
Proof.
  intros Hc Hk s Hs. destruct (Hc s Hs) as (a & s1 & Hrun & Hs1 & Halg).
  destruct (Hk a s1 Hs1) as (b & s2 & Hrun2 & Hs2 & Halg2).
  exists b, s2. unfold bind. rewrite Hrun.
  split; [exact Hrun2|]. split; [exact Hs2 | congruence].
Qed.

Lemma NoDup_append_absent (l : list string) (v : string) :
  NoDup l -> ~ In v l -> NoDup (l ++ [v])%list.
Proof.
  intros Hl Hv. apply NoDup_app; [assumption | repeat constructor; intros [] | ].
  intros x Hx [<-|[]]. now apply Hv.
Qed.

Lemma preserves_AddInline (content : string) : preserves (AddInline content).
Proof.
  intros s (Halg & Hhashes & Hhosts).
  destruct (inlineHash_supported _ content Halg) as (hash & Hhash).
  rewrite (AddInline_hash _ _ _ Hhash).
  destruct (slices.Contains (Hashes s) hash) eqn:Hc.
  - exists tt, s. now repeat split.
  - eexists tt, _. split; [reflexivity|]. repeat split; try assumption.
    simpl. apply NoDup_append_absent; [assumption | now apply Contains_not_In].
Qed.

Lemma preserves_AddSrc (srcString : string) : preserves (AddSrc srcString).
Proof.
  intros s (Halg & Hhashes & Hhosts). unfold AddSrc.
  destruct (url_Parse srcString) as [err|src]; run.
  { eexists _, s. now repeat split. }
  destruct (Scheme src =? "http"); [eexists _, s; now repeat split|].
  destruct (Scheme src =? "https").
  - destruct (slices.Contains (Hosts s) (hostSource src)) eqn:Hc; run.
    + eexists _, s. now repeat split.
    + eexists _, _. split; [reflexivity|]. repeat split; try assumption.
      simpl. apply NoDup_append_absent; [assumption | now apply Contains_not_In].
  - destruct (Scheme src =? ""); eexists _, _; (split; [reflexivity|]);
      now repeat split.
Qed.

Lemma preserves_scanSrc (attrs : list Attribute) (hasSrc : bool) :
  preserves (scanSrc attrs hasSrc).
Proof.
  revert hasSrc; induction attrs as [|attr attrs IH]; intro hasSrc; simpl.
  - apply preserves_ret.
  - destruct (Key attr =? "src"); [|apply IH].
    destruct hasSrc; [apply preserves_ret|].
    apply preserves_bind; [apply preserves_AddSrc | intros _; apply IH].
Qed.

Lemma preserves_addEventHandlers (attrs : list Attribute) :
  preserves (addEventHandlers attrs).
Proof.
  induction attrs as [|attr attrs IH]; simpl.
  - apply preserves_ret.
  - apply preserves_bind; [|intros _; exact IH].
    destruct (strings.HasPrefix _ _);
      [apply preserves_AddInline | apply preserves_ret].
Qed.

Lemma preserves_addInlineScript (children : list Node) :
  preserves (addInlineScript children).
Proof.
  destruct children as [|content siblings]; simpl; [apply preserves_ret|].
  destruct (negb _); [apply preserves_ret|].
  destruct (_ || _); [apply preserves_ret|].
  apply preserves_bind; [apply preserves_AddInline | intros _; apply preserves_ret].
Qed.

Lemma preserves_forChildren (visit : Node -> M (option error)) (cs : list Node) :
  Forall (fun c => preserves (visit c)) cs -> preserves (forChildren visit cs).
Proof.
  induction 1 as [|c cs Hc _ IH]; simpl.
  - apply preserves_ret.
  - apply preserves_bind; [exact Hc|].
    intros [e|]; [apply preserves_ret | exact IH].
Qed.

Lemma Node_induction (P : Node -> Prop) :
  (forall type data attr children,
      Forall P children -> P (mkNode type data attr children)) ->
  forall n, P n.
Proof.
  intro Hnode. fix IH 1. intros [type data attr children].
  apply Hnode. induction children as [|c cs IHcs]; constructor.
  - apply IH.
  - exact IHcs.
Qed.

(** The walk returns on every tree: it ends, and with a named algorithm it
    does not panic. *)
Lemma preserves_AddFromHTML (n : Node) (includeEventHandlers : bool) :
  preserves (AddFromHTML n includeEventHandlers).
Proof.
  induction n as [type data attr children IH] using Node_induction.
  cbn [AddFromHTML]. destruct (_ && _).
  - apply preserves_bind; [apply preserves_scanSrc|].
    intros [err|[|]];
      [apply preserves_ret | apply preserves_ret | apply preserves_addInlineScript].
  - apply preserves_bind.
    + destruct includeEventHandlers;
        [apply preserves_addEventHandlers | apply preserves_ret].
    + intros _. now apply preserves_forChildren.
Qed.

Lemma preserves_AddFromHTMLFile (path : string) (includeEventHandlers : bool) :
  preserves (AddFromHTMLFile path includeEventHandlers).
Proof.
  unfold AddFromHTMLFile.
  destruct (os_Open path) as [err|f]; [apply preserves_ret|].
  destruct (html_Parse f) as [err|doc]; [apply preserves_ret|].
  apply preserves_bind; [apply preserves_AddFromHTML|].
  intros [e|]; apply preserves_ret.
Qed.

Lemma Inv_zero : Inv zeroScriptSrc.
Proof. repeat split; [now left | constructor | constructor]. Qed.

(** *** Several files into one policy *)

(** A failing file does not end the processing: the paths after it are
    processed on the policy it left. *)
Lemma Processed_app (includeEventHandlers : bool) (pre post : list string)
      (s s1 s2 : ScriptSrc) (errors1 errors2 : list error) :
  Processed includeEventHandlers pre s errors1 s1 ->
  Processed includeEventHandlers post s1 errors2 s2 ->
  Processed includeEventHandlers (pre ++ post)%list s (errors1 ++ errors2)%list s2.
Proof.
  induction 1 as [s|path paths s sa sb errors Hrun _ IH
                   |path paths s sa sb e errors Hrun _ IH]; intro Hpost; simpl.
  - exact Hpost.
  - eapply Processed_ok; [exact Hrun | now apply IH].
  - eapply Processed_failed; [exact Hrun | now apply IH].
Qed.

Lemma Processed_deterministic (includeEventHandlers : bool) (paths : list string)
      (s s1 s2 : ScriptSrc) (errors1 errors2 : list error) :
  Processed includeEventHandlers paths s errors1 s1 ->
  Processed includeEventHandlers paths s errors2 s2 ->
  errors1 = errors2 /\ s1 = s2.
Proof.
  intro H1. revert errors2 s2.
  induction H1 as [s|path paths s sa sb errors Hrun _ IH
                    |path paths s sa sb e errors Hrun _ IH];
    intros errors2 s2 H2; inversion H2; subst; try (split; reflexivity);
    match goal with
    | Ha : AddFromHTMLFile _ _ _ = _, Hb : AddFromHTMLFile _ _ _ = _ |- _ =>
        rewrite Ha in Hb; inversion Hb; subst
    end;
    match goal with
    | Hp : Processed _ _ _ _ _ |- _ => destruct (IH _ _ Hp) as [-> ->]
    end; split; reflexivity.
Qed.

Lemma Processed_Inv (includeEventHandlers : bool) (paths : list string)
      (s s' : ScriptSrc) (errors : list error) :
  Processed includeEventHandlers paths s errors s' -> Inv s -> Inv s'.
Proof.
  induction 1 as [s|path paths s sa sb errors Hrun _ IH
                   |path paths s sa sb e errors Hrun _ IH]; intro Hs.
  - exact Hs.
  - apply IH.
    destruct (preserves_AddFromHTMLFile path includeEventHandlers s Hs)
      as (r & s1 & Hrun' & Hs1 & _).
    rewrite Hrun in Hrun'. now injection Hrun' as _ ->.
  - apply IH.
    destruct (preserves_AddFromHTMLFile path includeEventHandlers s Hs)
      as (r & s1 & Hrun' & Hs1 & _).
    rewrite Hrun in Hrun'. now injection Hrun' as _ ->.
Qed.

(** A policy with the invariant holds every token at most once. *)
Lemma Inv_at_most_once (s : ScriptSrc) (v : string) :
  Inv s ->
  count_occ string_dec (Hashes s) v <= 1 /\ count_occ string_dec (Hosts s) v <= 1.
Proof.
  intros (_ & Hhashes & Hhosts).
  split; now apply (proj1 (NoDup_count_occ string_dec _)).
Qed.

(** The loop of [ScriptSrcFromHTMLFiles] processes every path and appends
    the errors of the failing ones to its slice. *)
Lemma collectFiles_Processed (includeEventHandlers : bool) (paths : list string) :
  forall s, Inv s ->
    exists errors s',
      Processed includeEventHandlers paths s errors s'
      /\ forall acc,
           collectFiles paths includeEventHandlers acc s
           = Returns ((acc ++ errors)%list, s').
Proof.
  induction paths as [|path paths IH]; intros s Hs.
  - exists [], s. split; [constructor|]. intro acc. simpl.
    now rewrite app_nil_r.
  - destruct (preserves_AddFromHTMLFile path includeEventHandlers s Hs)
      as (r & s1 & Hrun & Hs1 & _).
    destruct (IH s1 Hs1) as (errors & s' & Hrest & Hloop).
    destruct r as [e|].
    + exists (e :: errors), s'. split.
      * eapply Processed_failed; eassumption.
      * intro acc. simpl. unfold bind. rewrite Hrun, Hloop.
        now rewrite <- app_assoc.
    + exists errors, s'. split.
      * eapply Processed_ok; eassumption.
      * intro acc. simpl. unfold bind. now rewrite Hrun, Hloop.
Qed.

(** C6, as the code has it.  [ScriptSrcFromHTMLFiles] processes every path
    into one policy, whether earlier files failed or not, and collects the
    errors.  Without an error it returns the policy; with exactly one it
    returns that error as it is; with two or more it returns one error that
    holds all of them in order. *)
Theorem ScriptSrcFromHTMLFiles_collects (paths : list string)
        (includeEventHandlers : bool) :
  exists errors s',
    Processed includeEventHandlers paths zeroScriptSrc errors s'
    /\ ScriptSrcFromHTMLFiles paths includeEventHandlers
       = Returns match errors with
                 | [] => (Some s', None)
                 | [e] => (None, Some e)
                 | _ :: _ :: _ => (None, Some (ErrMultiple errors))
                 end.
Proof.
  destruct (collectFiles_Processed includeEventHandlers paths _ Inv_zero)
    as (errors & s' & Hall & Hloop).
  exists errors, s'. split; [exact Hall|].
  unfold ScriptSrcFromHTMLFiles. rewrite Hloop. simpl.
  now destruct errors as [|e [|e' rest]].
Qed.

End Theorems.

(** *** The base64 text of a digest *)

Lemma list_ind3 {A : Type} (P : list A -> Prop) :
  P [] -> (forall a, P [a]) -> (forall a b, P [a; b]) ->
  (forall a b c l, P l -> P (a :: b :: c :: l)) ->
  forall l, P l.
Proof.
  intros H0 H1 H2 H3. fix IH 1. intros [|a [|b [|c l]]].
  - exact H0.
  - apply H1.
  - apply H2.
  - apply H3, IH.
Qed.

(** Every three bytes, and a last group of one or two, give four
    characters. *)
Lemma EncodeToString_length (src : list byte) :
  String.length (base64.EncodeToString src) = 4 * ((List.length src + 2) / 3).
Proof.
  induction src as [| a | a b | a b c l IH] using list_ind3; try reflexivity.
  cbn [base64.EncodeToString String.length List.length]. rewrite IH.
  replace (S (S (S (List.length l))) + 2) with ((List.length l + 2) + 1 * 3) by lia.
  rewrite Nat.div_add by lia. lia.
Qed.




Example EncodeToString_vectors :
  map (fun s => base64.EncodeToString (list_byte_of_string s))
      [""; "f"; "fo"; "foo"; "foob"; "fooba"; "foobar"]
  = [""; "Zg=="; "Zm8="; "Zm9v"; "Zm9vYg=="; "Zm9vYmE="; "Zm9vYmFy"].
Proof. reflexivity. Qed.

(** *** The reference instance at work *)

(** The digests of the empty message and of ["abc"]. *)
Example Sum256_vectors :
  map (fun s => base64.EncodeToString (sha2.Sum256 (list_byte_of_string s)))
      [""; "abc"]
  = ["47DEQpj8HBSa+/TImW+5JCeuQeRkm5NMpJWZG3hSuFU=";
     "ungWv48Bz+pBQUDeXa4iI7ADYaOWF3qctBD/YfIAFa0="].
Proof. vm_compute. reflexivity. Qed.

Example Sum512_vectors :
  map (fun s => base64.EncodeToString (sha2.Sum512 (list_byte_of_string s)))
      [""; "abc"]
  = ["z4PhNX7vuL3xVChQ1m2AB9Yg5AULVxXcg/SpIdNs6c5H0NE8XYXysP+DGNKHfuwvY7kxvUdBeoGlODJ6+SfaPg==";
     "3a81oZNherrMQXNJriBBMRLm+k6JqX6iCp7u5ktV05ohkpkqJ0/BqDa6PCOj/uu9RU1EI2Q86A4qmslPpUyknw=="].
Proof. vm_compute. reflexivity. Qed.

(** The example of the package documentation: the two documents, with the
    event handlers, give the [script-src] the documentation shows. *)
Example documentation_example :
  match ScriptSrcFromHTMLFiles (libs := goLibs) ["index.html"; "just-self.html"] true with
  | Returns (Some scriptSrc, None) => ScriptSrc_String scriptSrc
  | _ => ""
  end
  = "'self' 'sha512-nbfZ9uoH92o+408nb2dlJhQJZLFdbJjY4ntbG7YAE23fMsuuEg261l9jm2HCns29WgvqGsjhO6F5bLDlIdSSMw==' 'sha512-Vj66Rmbqm1b9qQrkUNDR0OzPiTjQZ9Ayf25jSMRKvOgNlqnzNa8cn35DOErR7+AyOIxMT/ZYNJic15+Rj6lbkg==' 'sha512-X+aeR+9dEmqY9SqucXOUgHMKCI8yYCIBSgAOUxQ41fJBfPlM2nLA24g8XIxq1XJNuU+7YcvnrSkKoL5u4QVj3w==' https://challenges.cloudflare.com".
Proof. vm_compute. reflexivity. Qed.

(** A document whose only script has an [http] source is processed without
    an error, and nothing of it reaches the policy. *)
Example insecure_document_accepted :
  AddSrc (libs := goLibs) "http://example.com/a.js" zeroScriptSrc
  = Returns (Some (ErrInsecureSrc "http://example.com/a.js"), zeroScriptSrc)
  /\ ScriptSrcFromHTMLFile (libs := goLibs) "insecure.html" true
     = Returns (zeroScriptSrc, None).
Proof. split; reflexivity. Qed.

(** A script with a source and a body: the body is not looked at. *)
Example source_with_body :
  AddFromHTML (libs := goLibs) srcAndBodyHTML true zeroScriptSrc
  = Returns (None, setSelf true zeroScriptSrc).
Proof. reflexivity. Qed.

Example element_inside_script :
  AddFromHTML (libs := goLibs) nestedScriptHTML true zeroScriptSrc
  = Returns (Some ErrNotText, zeroScriptSrc).
Proof. reflexivity. Qed.

Example protocol_relative_document :
  ScriptSrcFromHTMLFile (libs := goLibs) "protocol-relative.html" true
  = Returns (setSelf true zeroScriptSrc, None).
Proof. reflexivity. Qed.

(** Three failing files around a good one: all three errors come back, in
    the order of the paths. *)
Example batch_goes_on_after_a_failure :
  ScriptSrcFromHTMLFiles (libs := goLibs)
    ["two-src.html"; "index.html"; "empty-script.html"; "missing.html"] false
  = Returns (None,
             Some (ErrMultiple
                     [ErrProcess "two-src.html" (ErrSecondSrc "b.js");
                      ErrProcess "empty-script.html" ErrNoContent;
                      LibError "open missing.html: no such file or directory"])).
Proof. vm_compute. reflexivity. Qed.

(** *** The theorems at concrete inputs *)

Lemma AddSrc_decision_table_witness :
  AddSrc (libs := goLibs) "ht tp://x" zeroScriptSrc
  = Returns (Some (ErrParseSrc "ht tp://x"
                     (LibError "first path segment in URL cannot contain colon")),
             zeroScriptSrc)
  /\ AddSrc (libs := goLibs) "lib/app.js?v=2" zeroScriptSrc
     = Returns (None, setSelf true zeroScriptSrc)
  /\ AddSrc (libs := goLibs) "https://cdn.example.com:8443/lib/a.js?v=1#top"
            (setHosts ["https://example.org"] zeroScriptSrc)
     = Returns (None, setHosts ["https://example.org"; "https://cdn.example.com:8443"]
                               zeroScriptSrc)
  /\ AddSrc (libs := goLibs) "https://example.org/other.js"
            (setHosts ["https://example.org"] zeroScriptSrc)
     = Returns (None, setHosts ["https://example.org"] zeroScriptSrc)
  /\ AddSrc (libs := goLibs) "HTTP://example.com/a.js" zeroScriptSrc
     = Returns (Some (ErrInsecureSrc "HTTP://example.com/a.js"), zeroScriptSrc)
  /\ AddSrc (libs := goLibs) "data:text/javascript,alert(1)" zeroScriptSrc
     = Returns (Some (ErrUnknownSrc "data:text/javascript,alert(1)"), zeroScriptSrc).
Proof.
  refine (conj _ (conj _ (conj _ (conj _ (conj _ _))))).
  - exact (AddSrc_decision_table (libs := goLibs) "ht tp://x" zeroScriptSrc).
  - pose proof (AddSrc_decision_table (libs := goLibs) "lib/app.js?v=2"
                  zeroScriptSrc) as Hrows.
    vm_compute in Hrows. destruct Hrows as (Hrow & _). exact (Hrow eq_refl).
  - pose proof (AddSrc_decision_table (libs := goLibs)
                  "https://cdn.example.com:8443/lib/a.js?v=1#top"
                  (setHosts ["https://example.org"] zeroScriptSrc)) as Hrows.
    vm_compute in Hrows. destruct Hrows as (_ & Hrow & _).
    apply (proj2 (Hrow eq_refl)). intros [Heq|[]]. discriminate Heq.
  - pose proof (AddSrc_decision_table (libs := goLibs)
                  "https://example.org/other.js"
                  (setHosts ["https://example.org"] zeroScriptSrc)) as Hrows.
    vm_compute in Hrows. destruct Hrows as (_ & Hrow & _).
    apply (proj1 (Hrow eq_refl)). now left.
  - pose proof (AddSrc_decision_table (libs := goLibs) "HTTP://example.com/a.js"
                  zeroScriptSrc) as Hrows.
    vm_compute in Hrows. destruct Hrows as (_ & _ & Hrow & _).
    exact (Hrow eq_refl).
  - pose proof (AddSrc_decision_table (libs := goLibs)
                  "data:text/javascript,alert(1)" zeroScriptSrc) as Hrows.
    vm_compute in Hrows. destruct Hrows as (_ & _ & _ & Hrow).
    apply Hrow; discriminate.
Defined.

Lemma AddSrc_http_rejected_witness :
  exists s',
    AddSrc (libs := goLibs) "http://example.com/a.js"
           (setHosts ["https://example.org"] zeroScriptSrc)
    = Returns (Some (ErrInsecureSrc "http://example.com/a.js"), s')
    /\ s' = setHosts ["https://example.org"] zeroScriptSrc
    /\ Self s' = false /\ Hosts s' = ["https://example.org"]
    /\ Hashes s' = [] /\ Others s' = [].
Proof.
  exact (AddSrc_http_rejected (libs := goLibs) "http://example.com/a.js"
           (mkURL "http" "" None "example.com" "/a.js" "" "")
           (setHosts ["https://example.org"] zeroScriptSrc)
           eq_refl eq_refl).
Defined.

Lemma AddSrc_schemeless_is_self_witness :
  url_Parse (Collaborators := goLibs) "//cdn.example.com/x.js"
  = inr (mkURL "" "" None "cdn.example.com" "/x.js" "" "")
  /\ exists s',
       AddSrc (libs := goLibs) "//cdn.example.com/x.js" zeroScriptSrc
       = Returns (None, s')
       /\ Self s' = true /\ Hosts s' = []
       /\ Hashes s' = [] /\ Others s' = [].
Proof.
  split; [reflexivity|].
  exact (AddSrc_schemeless_is_self (libs := goLibs) "//cdn.example.com/x.js"
           (mkURL "" "" None "cdn.example.com" "/x.js" "" "")
           zeroScriptSrc eq_refl eq_refl).
Defined.

Lemma AddInline_token_witness :
  AddInline (libs := goLibs) "alert('Hello')" zeroScriptSrc
  = Returns (tt, setHashes
                   ["sha512-Vj66Rmbqm1b9qQrkUNDR0OzPiTjQZ9Ayf25jSMRKvOgNlqnzNa8cn35DOErR7+AyOIxMT/ZYNJic15+Rj6lbkg=="]
                   zeroScriptSrc)
  /\ AddInline (libs := goLibs) "alert('Hello')" (mkScriptSrc false [] Sha256 [] [])
     = Returns (tt, mkScriptSrc false
                      ["sha256-xsuTGwM1pbHxJt6Bcu7KLls/Z+Q7K2yHs6kiFf8OBkA="]
                      Sha256 [] []).
Proof.
  split.
  - destruct (AddInline_token (libs := goLibs) "alert('Hello')" zeroScriptSrc
                (or_introl eq_refl)) as (_ & Hrun & _).
    rewrite Hrun. vm_compute. reflexivity.
  - destruct (AddInline_token (libs := goLibs) "alert('Hello')"
                (mkScriptSrc false [] Sha256 [] []) (or_intror eq_refl))
      as (_ & Hrun & _).
    rewrite Hrun. vm_compute. reflexivity.
Defined.

Lemma dedup_idempotent_witness :
  (exists s1,
     AddInline (libs := goLibs) "alert('Hello')" zeroScriptSrc = Returns (tt, s1)
     /\ AddInline (libs := goLibs) "alert('Hello')" s1 = Returns (tt, s1)
     /\ count_occ string_dec (Hashes s1)
          "sha512-Vj66Rmbqm1b9qQrkUNDR0OzPiTjQZ9Ayf25jSMRKvOgNlqnzNa8cn35DOErR7+AyOIxMT/ZYNJic15+Rj6lbkg=="
        = 1)
  /\ (exists s1,
        AddSrc (libs := goLibs) "https://cdn.example.com/a.js" zeroScriptSrc
        = Returns (None, s1)
        /\ AddSrc (libs := goLibs) "https://cdn.example.com/a.js" s1
           = Returns (None, s1)
        /\ count_occ string_dec (Hosts s1) "https://cdn.example.com" = 1).
Proof.
  destruct (dedup_idempotent (libs := goLibs) "alert('Hello')"
              "https://cdn.example.com/a.js" zeroScriptSrc) as [Hinline Hsrc].
  split.
  - apply Hinline; [vm_compute; reflexivity | simpl; lia].
  - apply (Hsrc (mkURL "https" "" None "cdn.example.com" "/a.js" "" ""));
      [reflexivity | reflexivity | simpl; lia].
Defined.

Lemma AddFromHTML_drops_src_error_witness :
  AddSrc (libs := goLibs) "http://example.com/a.js" zeroScriptSrc
  = Returns (Some (ErrInsecureSrc "http://example.com/a.js"), zeroScriptSrc)
  /\ AddFromHTML (libs := goLibs)
       (element "script" [attribute "src" "http://example.com/a.js"] [])
       true zeroScriptSrc
     = Returns (None, zeroScriptSrc).
Proof.
  split; [reflexivity|].
  apply (AddFromHTML_drops_src_error (libs := goLibs)
           (element "script" [attribute "src" "http://example.com/a.js"] [])
           (attribute "src" "http://example.com/a.js") true
           zeroScriptSrc zeroScriptSrc
           (ErrInsecureSrc "http://example.com/a.js")).
  - split; reflexivity.
  - reflexivity.
  - reflexivity.
Defined.

Lemma AddFromHTML_second_src_after_first_witness :
  exists r s',
    AddSrc (libs := goLibs) "https://cdn.example.com/a.js" zeroScriptSrc
    = Returns (r, s')
    /\ AddFromHTML (libs := goLibs)
         (element "script" [attribute "src" "https://cdn.example.com/a.js";
                            attribute "src" "b.js"] [])
         false zeroScriptSrc
       = Returns (Some (ErrSecondSrc "b.js"), s')
    /\ In "https://cdn.example.com" (Hosts s').
Proof.
  destruct (AddFromHTML_second_src_after_first (libs := goLibs)
              (element "script" [attribute "src" "https://cdn.example.com/a.js";
                                 attribute "src" "b.js"] [])
              (attribute "src" "https://cdn.example.com/a.js")
              (attribute "src" "b.js") [] false zeroScriptSrc
              (conj eq_refl eq_refl) eq_refl)
    as (r & s' & Hadd & Hwalk & Heffect).
  exists r, s'. split; [exact Hadd|]. split; [exact Hwalk|].
  apply (Heffect (mkURL "https" "" None "cdn.example.com" "/a.js" "" ""));
    reflexivity.
Defined.

Lemma AddFromHTML_inline_script_witness :
  (forall s,
     AddFromHTML (libs := goLibs) (element "script" [] [text "run()"]) true s
     = (AddInline (libs := goLibs) "run()" ;; ret None) s)
  /\ (exists e, invalidInlineScript e
                /\ AddFromHTML (libs := goLibs)
                     (element "script" [] [text "a()"; text "b()"]) true zeroScriptSrc
                   = Returns (Some e, zeroScriptSrc))
  /\ AddFromHTML (libs := goLibs) (element "script" [] []) true zeroScriptSrc
     = Returns (Some ErrNoContent, zeroScriptSrc).
Proof.
  split; [|split].
  - intro s.
    exact (proj1 (AddFromHTML_inline_script (libs := goLibs)
                    (element "script" [] [text "run()"]) true s
                    (conj eq_refl eq_refl) eq_refl)).
  - exact (proj1 (AddFromHTML_inline_script (libs := goLibs)
                    (element "script" [] [text "a()"; text "b()"]) true
                    zeroScriptSrc (conj eq_refl eq_refl) eq_refl)).
  - exact (proj2 (AddFromHTML_inline_script (libs := goLibs)
                    (element "script" [] []) true zeroScriptSrc
                    (conj eq_refl eq_refl) eq_refl) eq_refl).
Defined.

(** C6, as the claim has it, fails on one failing file: the error of that
    file is returned as it is, not inside an error that holds a list. *)
Lemma single_failure_is_not_aggregated :
  ~ (exists errors s',
       Processed (libs := goLibs) true ["empty-script.html"] zeroScriptSrc errors s'
       /\ match errors with
          | [] =>
              ScriptSrcFromHTMLFiles (libs := goLibs) ["empty-script.html"] true
              = Returns (Some s', None)
          | _ :: _ =>
              exists scriptSrc,
                ScriptSrcFromHTMLFiles (libs := goLibs) ["empty-script.html"] true
                = Returns (scriptSrc, Some (ErrMultiple errors))
          end).
Proof.
  intros (errors & s' & _ & Hresult).
  assert (Hrun : ScriptSrcFromHTMLFiles (libs := goLibs) ["empty-script.html"] true
                 = Returns (None, Some (ErrProcess "empty-script.html" ErrNoContent)))
    by reflexivity.
  rewrite Hrun in Hresult. destruct errors as [|e errors].
  - discriminate Hresult.
  - destruct Hresult as (scriptSrc & Hresult). discriminate Hresult.
Qed.


(** *** What every operation keeps *)

Section Further.

Context {libs : Collaborators}.

Lemma AddInline_inv (content : string) (s s' : ScriptSrc) (r : unit) :
  AddInline content s = Returns (r, s') ->
  exists hash,
    inlineHash (DefaultHashAlgorithm s) content = inr hash
    /\ s' = (if slices.Contains (Hashes s) hash then s
             else setHashes (Hashes s ++ [hash])%list s).
Proof.
  unfold AddInline, bind, get. simpl.
  destruct (inlineHash (DefaultHashAlgorithm s) content) as [v|hash];
    [discriminate|].
  intro Hrun. exists hash. split; [reflexivity|].
  destruct (slices.Contains (Hashes s) hash); simpl in Hrun;
    now injection Hrun as _ <-.
Qed.

Lemma AddSrc_inv (srcString : string) (s s' : ScriptSrc) (r : option error) :
  AddSrc srcString s = Returns (r, s') ->
  s' = s
  \/ s' = setSelf true s
  \/ exists src,
       url_Parse srcString = inr src /\ Scheme src = "https"
       /\ ~ In (hostSource src) (Hosts s)
       /\ s' = setHosts (Hosts s ++ [hostSource src])%list s.
Proof.
  unfold AddSrc. destruct (url_Parse srcString) as [err|src] eqn:Hparse.
  { intro Hrun. left. now injection Hrun as _ <-. }
  destruct (Scheme src =? "http").
  { intro Hrun. left. now injection Hrun as _ <-. }
  destruct (Scheme src =? "https") eqn:Hhttps.
  - apply String.eqb_eq in Hhttps. unfold bind, get. simpl.
    destruct (slices.Contains (Hosts s) (hostSource src)) eqn:Hc; simpl;
      intro Hrun; injection Hrun as _ <-.
    + now left.
    + right. right. exists src. repeat split; try assumption.
      now apply Contains_not_In.
  - destruct (Scheme src =? ""); intro Hrun; injection Hrun as _ <-.
    + right. now left.
    + now left.
Qed.

Lemma keeps_ret {A : Type} (I : ScriptSrc -> Prop) (a : A) : keeps I (ret a).
Proof. intros s r s' Hs Hrun. now injection Hrun as _ <-. Qed.

Lemma keeps_bind {A B : Type} (I : ScriptSrc -> Prop) (c : M A) (k : A -> M B) :
  keeps I c -> (forall a, keeps I (k a)) -> keeps I (bind c k).
Proof.
  intros Hc Hk s r s' Hs Hrun. unfold bind in Hrun.
  destruct (c s) as [[a sm]|v] eqn:Hcs; [|discriminate].
  exact (Hk a sm r s' (Hc s a sm Hs Hcs) Hrun).
Qed.

Section Keeps.

Variable I : ScriptSrc -> Prop.
Hypothesis keeps_AddInline : forall content, keeps I (AddInline content).
Hypothesis keeps_AddSrc : forall srcString, keeps I (AddSrc srcString).

Lemma keeps_scanSrc (attrs : list Attribute) (hasSrc : bool) :
  keeps I (scanSrc attrs hasSrc).
Proof.
  revert hasSrc; induction attrs as [|attr attrs IH]; intro hasSrc; simpl.
  - apply keeps_ret.
  - destruct (Key attr =? "src"); [|apply IH].
    destruct hasSrc; [apply keeps_ret|].
    apply keeps_bind; [apply keeps_AddSrc | intros _; apply IH].
Qed.

Lemma keeps_addEventHandlers (attrs : list Attribute) :
  keeps I (addEventHandlers attrs).
Proof.
  induction attrs as [|attr attrs IH]; simpl.
  - apply keeps_ret.
  - apply keeps_bind; [|intros _; exact IH].
    destruct (strings.HasPrefix _ _); [apply keeps_AddInline | apply keeps_ret].
Qed.

Lemma keeps_addInlineScript (children : list Node) :
  keeps I (addInlineScript children).
Proof.
  destruct children as [|content siblings]; simpl; [apply keeps_ret|].
  destruct (negb _); [apply keeps_ret|].
  destruct (_ || _); [apply keeps_ret|].
  apply keeps_bind; [apply keeps_AddInline | intros _; apply keeps_ret].
Qed.

Lemma keeps_forChildren (visit : Node -> M (option error)) (cs : list Node) :
  Forall (fun c => keeps I (visit c)) cs -> keeps I (forChildren visit cs).
Proof.
  induction 1 as [|c cs Hc _ IH]; simpl.
  - apply keeps_ret.
  - apply keeps_bind; [exact Hc|].
    intros [e|]; [apply keeps_ret | exact IH].
Qed.

Lemma keeps_AddFromHTML (n : Node) (includeEventHandlers : bool) :
  keeps I (AddFromHTML n includeEventHandlers).
Proof.
  induction n as [type data attr children IH] using Node_induction.
  cbn [AddFromHTML]. destruct (_ && _).
  - apply keeps_bind; [apply keeps_scanSrc|].
    intros [err|[|]];
      [apply keeps_ret | apply keeps_ret | apply keeps_addInlineScript].
  - apply keeps_bind.
    + destruct includeEventHandlers;
        [apply keeps_addEventHandlers | apply keeps_ret].
    + intros _. now apply keeps_forChildren.
Qed.

Lemma keeps_AddFromHTMLFile (path : string) (includeEventHandlers : bool) :
  keeps I (AddFromHTMLFile path includeEventHandlers).
Proof.
  unfold AddFromHTMLFile.
  destruct (os_Open path) as [err|f]; [apply keeps_ret|].
  destruct (html_Parse f) as [err|doc]; [apply keeps_ret|].
  apply keeps_bind; [apply keeps_AddFromHTML|].
  intros [e|]; apply keeps_ret.
Qed.

Lemma keeps_Processed (includeEventHandlers : bool) (paths : list string)
      (s s' : ScriptSrc) (errors : list error) :
  Processed includeEventHandlers paths s errors s' -> I s -> I s'.
Proof.
  induction 1 as [s|path paths s sa sb errors Hrun _ IH
                   |path paths s sa sb e errors Hrun _ IH]; intro Hs.
  - exact Hs.
  - apply IH. exact (keeps_AddFromHTMLFile _ _ _ _ _ Hs Hrun).
  - apply IH. exact (keeps_AddFromHTMLFile _ _ _ _ _ Hs Hrun).
Qed.

End Keeps.

(** *** The policy only grows *)

Lemma extends_refl (s : ScriptSrc) : extends s s.
Proof.
  repeat split; try (exists []; now rewrite app_nil_r). auto.
Qed.

Lemma extends_trans (s t u : ScriptSrc) :
  extends s t -> extends t u -> extends s u.
Proof.
  intros (Ha & Ho & Hs & (h1 & Hh) & (g1 & Hg))
         (Ha' & Ho' & Hs' & (h2 & Hh') & (g2 & Hg')).
  unfold extends. split; [congruence|]. split; [congruence|].
  split; [auto|]. split.
  - exists (h1 ++ h2)%list. now rewrite Hh', Hh, app_assoc.
  - exists (g1 ++ g2)%list. now rewrite Hg', Hg, app_assoc.
Qed.

Lemma extends_covered (s t : ScriptSrc) : extends s t -> covered s t.
Proof.
  intros (Ha & _ & Hs & (h & Hh) & (g & Hg)).
  repeat split; try assumption.
  - rewrite Hh. now apply incl_appl, incl_refl.
  - rewrite Hg. now apply incl_appl, incl_refl.
Qed.

Lemma covered_trans (s t u : ScriptSrc) :
  covered s t -> covered t u -> covered s u.
Proof.
  intros (Ha & Hs & Hh & Hg) (Ha' & Hs' & Hh' & Hg').
  unfold covered. split; [congruence|]. split; [auto|].
  split; eapply incl_tran; eassumption.
Qed.

Lemma AddInline_extends (content : string) : grows (AddInline content).
Proof.
  intros s r s' Hrun. destruct (AddInline_inv _ _ _ _ Hrun) as (hash & _ & ->).
  destruct (slices.Contains (Hashes s) hash); [apply extends_refl|].
  repeat split; simpl; try (exists []; now rewrite app_nil_r); auto.
  now exists [hash].
Qed.

Lemma AddSrc_extends (srcString : string) : grows (AddSrc srcString).
Proof.
  intros s r s' Hrun.
  destruct (AddSrc_inv _ _ _ _ Hrun) as [-> | [-> | (src & _ & _ & _ & ->)]].
  - apply extends_refl.
  - repeat split; simpl; try (exists []; now rewrite app_nil_r).
  - repeat split; simpl; try (exists []; now rewrite app_nil_r); auto.
    now exists [hostSource src].
Qed.

Lemma keeps_extends_step {A : Type} (c : M A) (s0 : ScriptSrc) :
  grows c -> keeps (extends s0) c.
Proof.
  intros Hc s r s' Hs Hrun. exact (extends_trans _ _ _ Hs (Hc _ _ _ Hrun)).
Qed.

Lemma grows_of_keeps {A : Type} (c : M A) :
  (forall s0, keeps (extends s0) c) -> grows c.
Proof.
  intros Hc s r s' Hrun. exact (Hc s s r s' (extends_refl s) Hrun).
Qed.

Lemma grows_AddFromHTML (n : Node) (includeEventHandlers : bool) :
  grows (AddFromHTML n includeEventHandlers).
Proof.
  apply grows_of_keeps. intro s0.
  apply keeps_AddFromHTML; intro x; apply keeps_extends_step;
    [apply AddInline_extends | apply AddSrc_extends].
Qed.

Lemma grows_AddFromHTMLFile (path : string) (includeEventHandlers : bool) :
  grows (AddFromHTMLFile path includeEventHandlers).
Proof.
  apply grows_of_keeps. intro s0.
  apply keeps_AddFromHTMLFile; intro x; apply keeps_extends_step;
    [apply AddInline_extends | apply AddSrc_extends].
Qed.

(** X1. A walk that returns, with or without an error, has only appended
    to the policy: the entries [Hashes] and [Hosts] had are still there, in
    front and in their order, [Self] is not taken back, and [Others] and
    the algorithm are the same. *)
Theorem AddFromHTML_only_appends (n : Node) (includeEventHandlers : bool)
        (s s' : ScriptSrc) (r : option error) :
  AddFromHTML n includeEventHandlers s = Returns (r, s') ->
  DefaultHashAlgorithm s' = DefaultHashAlgorithm s
  /\ Others s' = Others s
  /\ (Self s = true -> Self s' = true)
  /\ (exists more, Hashes s' = (Hashes s ++ more)%list)
  /\ (exists more, Hosts s' = (Hosts s ++ more)%list).
Proof.
  intro Hrun. exact (grows_AddFromHTML n includeEventHandlers s r s' Hrun).
Qed.

(** *** The shape of the entries *)

Lemma prefix_append (p x : string) : String.prefix p (p ++ x) = true.
Proof.
  induction p as [|c p IH]; simpl; [now destruct x|].
  destruct (ascii_dec c c); [exact IH | congruence].
Qed.

Lemma inlineHash_prefix (alg : HashAlgorithm) (content hash : string) :
  inlineHash alg content = inr hash ->
  (alg = Sha512 /\ String.prefix "sha512-" hash = true)
  \/ (alg = Sha256 /\ String.prefix "sha256-" hash = true).
Proof.
  unfold inlineHash. destruct alg; intro Hhash; try discriminate Hhash;
    injection Hhash as <-;
    [left; split; [reflexivity | exact (prefix_append "sha512-" _)]
    |right; split; [reflexivity | exact (prefix_append "sha256-" _)]].
Qed.

Lemma hostSource_prefix (src : URL) :
  String.prefix "https://" (hostSource src) = true.
Proof. apply prefix_append. Qed.

Lemma Forall_append_one {A : Type} (P : A -> Prop) (l : list A) (x : A) :
  Forall P l -> P x -> Forall P (l ++ [x])%list.
Proof.
  intros Hl Hx. apply Forall_app. split; [assumption | now constructor].
Qed.

Lemma keeps_entries_AddInline (content : string) :
  keeps entriesWellFormed (AddInline content).
Proof.
  intros s r s' (Hhashes & Hhosts) Hrun.
  destruct (AddInline_inv _ _ _ _ Hrun) as (hash & Hhash & ->).
  destruct (slices.Contains (Hashes s) hash); [now split|].
  split; [|exact Hhosts]. simpl. apply Forall_append_one; [exact Hhashes|].
  destruct (inlineHash_prefix _ _ _ Hhash) as [[_ H]|[_ H]]; auto.
Qed.

Lemma keeps_entries_AddSrc (srcString : string) :
  keeps entriesWellFormed (AddSrc srcString).
Proof.
  intros s r s' (Hhashes & Hhosts) Hrun.
  destruct (AddSrc_inv _ _ _ _ Hrun) as [-> | [-> | (src & _ & _ & _ & ->)]];
    try (now split).
  split; [exact Hhashes|]. simpl.
  apply Forall_append_one; [exact Hhosts | apply hostSource_prefix].
Qed.

(** X2. When every hash of the policy begins with [sha512-] or [sha256-]
    and every host with [https://], the same holds after a walk: the walk
    adds no entry of another shape. *)
Theorem AddFromHTML_entries_well_formed (n : Node) (includeEventHandlers : bool)
        (s s' : ScriptSrc) (r : option error) :
  entriesWellFormed s ->
  AddFromHTML n includeEventHandlers s = Returns (r, s') ->
  Forall (fun hash => String.prefix "sha512-" hash = true
                      \/ String.prefix "sha256-" hash = true) (Hashes s')
  /\ Forall (fun host => String.prefix "https://" host = true) (Hosts s').
Proof.
  intros Hs Hrun.
  exact (keeps_AddFromHTML entriesWellFormed keeps_entries_AddInline
           keeps_entries_AddSrc n includeEventHandlers s r s' Hs Hrun).
Qed.

Lemma keeps_library_AddInline (content : string) :
  keeps libraryPolicy (AddInline content).
Proof.
  intros s r s' (Halg & Hothers & Hhashes & Hhosts) Hrun.
  destruct (AddInline_inv _ _ _ _ Hrun) as (hash & Hhash & ->).
  destruct (slices.Contains (Hashes s) hash); [now repeat split|].
  repeat split; try assumption. simpl.
  apply Forall_append_one; [exact Hhashes|].
  destruct (inlineHash_prefix _ _ _ Hhash) as [[_ H]|[H _]]; [exact H|].
  rewrite Halg in H. discriminate H.
Qed.

Lemma keeps_library_AddSrc (srcString : string) :
  keeps libraryPolicy (AddSrc srcString).
Proof.
  intros s r s' (Halg & Hothers & Hhashes & Hhosts) Hrun.
  destruct (AddSrc_inv _ _ _ _ Hrun) as [-> | [-> | (src & _ & _ & _ & ->)]];
    try (now repeat split).
  repeat split; try assumption. simpl.
  apply Forall_append_one; [exact Hhosts | apply hostSource_prefix].
Qed.

Lemma libraryPolicy_zero : libraryPolicy zeroScriptSrc.
Proof. repeat split; constructor. Qed.

(** X3. A policy that [ScriptSrcFromHTMLFiles] returns comes without an
    error, has the algorithm [Sha512] and no entry in [Others], holds no
    hash and no host twice, and holds only hashes that begin with [sha512-]
    and hosts that begin with [https://]. *)
Theorem ScriptSrcFromHTMLFiles_policy_shape (paths : list string)
        (includeEventHandlers : bool) (s : ScriptSrc) (r : option error) :
  ScriptSrcFromHTMLFiles paths includeEventHandlers = Returns (Some s, r) ->
  r = None
  /\ DefaultHashAlgorithm s = Sha512
  /\ Others s = []
  /\ NoDup (Hashes s) /\ NoDup (Hosts s)
  /\ Forall (fun hash => String.prefix "sha512-" hash = true) (Hashes s)
  /\ Forall (fun host => String.prefix "https://" host = true) (Hosts s).
Proof.
  destruct (collectFiles_Processed includeEventHandlers paths _ Inv_zero)
    as (errors & s' & Hall & Hloop).
  unfold ScriptSrcFromHTMLFiles. rewrite Hloop. simpl.
  destruct errors as [|e [|e' rest]]; intro Hrun; try discriminate Hrun.
  injection Hrun as <- <-.
  destruct (Processed_Inv _ _ _ _ _ Hall Inv_zero) as (_ & Hhashes & Hhosts).
  destruct (keeps_Processed libraryPolicy keeps_library_AddInline
              keeps_library_AddSrc _ _ _ _ _ Hall libraryPolicy_zero)
    as (Halg & Hothers & Hprefix & Hhttps).
  repeat split; assumption.
Qed.

(** *** The panic of [AddInline] *)

Lemma inlineHash_unsupported (alg : HashAlgorithm) (content : string) :
  ~ supported alg -> inlineHash alg content = inl (ErrInvalidHashAlgorithm alg).
Proof.
  intro Hnot. unfold supported, Sha512, Sha256 in Hnot.
  destruct alg; try reflexivity; exfalso; apply Hnot; auto.
Qed.

(** X4. Under a value of [DefaultHashAlgorithm] that is neither [Sha512]
    nor [Sha256], [AddInline] panics with the error that names the value,
    and so does the walk of a well-shaped inline script. *)
Theorem AddInline_unsupported_panics (content : string) (n : Node)
        (includeEventHandlers : bool) (s : ScriptSrc) :
  ~ supported (DefaultHashAlgorithm s) ->
  AddInline content s = Panics (ErrInvalidHashAlgorithm (DefaultHashAlgorithm s))
  /\ (isScript n -> srcAttributes n = [] -> inlineContent n = Some content ->
      AddFromHTML n includeEventHandlers s
      = Panics (ErrInvalidHashAlgorithm (DefaultHashAlgorithm s))).
Proof.
  intro Hnot.
  assert (Hpanic : AddInline content s
                   = Panics (ErrInvalidHashAlgorithm (DefaultHashAlgorithm s))).
  { apply AddInline_panics. now apply inlineHash_unsupported. }
  split; [exact Hpanic|].
  destruct n as [t d attr children]. unfold isScript, srcAttributes, inlineContent.
  cbn [NType Data Attr Children]. intros [-> ->] Hsrc Hcontent.
  rewrite AddFromHTML_script. unfold bind.
  rewrite (scanSrc_without_src _ false s Hsrc).
  destruct children as [|[ct cd ca [|cc ccs]] [|sibling siblings]];
    try discriminate Hcontent;
    destruct ct; try discriminate Hcontent.
  injection Hcontent as ->. simpl. unfold bind. now rewrite Hpanic.
Qed.

(** *** What the walk looks at *)

Lemma scanSrc_filter (attrs : list Attribute) (hasSrc : bool) :
  scanSrc attrs hasSrc = scanSrc (filter isSrc attrs) hasSrc.
Proof.
  revert hasSrc; induction attrs as [|attr attrs IH]; intro hasSrc;
    [reflexivity|].
  cbn [filter scanSrc]. unfold isSrc at 1.
  destruct (Key attr =? "src") eqn:Hkey; [|apply IH].
  cbn [scanSrc]. rewrite Hkey.
  destruct hasSrc; [reflexivity|]. now rewrite IH.
Qed.

(** X5. On a script element the walk looks at no attribute but those named
    [src], and not at [includeEventHandlers]: an attribute such as [onload]
    on a script element is not hashed. *)
Theorem AddFromHTML_script_other_attributes (attr : list Attribute)
        (children : list Node) (b b' : bool) (s : ScriptSrc) :
  AddFromHTML (mkNode ElementNode "script" attr children) b s
  = AddFromHTML (mkNode ElementNode "script" (filter isSrc attr) children) b' s.
Proof.
  rewrite !AddFromHTML_script. now rewrite scanSrc_filter.
Qed.

Lemma forChildren_cons (visit : Node -> M (option error)) (c : Node)
      (cs : list Node) :
  forChildren visit (c :: cs)
  = (err <- visit c ;;
     match err with
     | Some e => ret (Some e)
     | None => forChildren visit cs
     end).
Proof. reflexivity. Qed.

Lemma forChildren_app (visit : Node -> M (option error)) (pre post : list Node)
      (s : ScriptSrc) :
  forChildren visit (pre ++ post)%list s
  = (err <- forChildren visit pre ;;
     match err with
     | Some e => ret (Some e)
     | None => forChildren visit post
     end) s.
Proof.
  revert s; induction pre as [|c pre IH]; intro s; [reflexivity|].
  cbn [app]. rewrite !forChildren_cons. unfold bind.
  destruct (visit c s) as [[[e|] s1]|v]; try reflexivity.
  rewrite IH. reflexivity.
Qed.

Lemma AddFromHTML_other (type : NodeType) (data : string) (attr : list Attribute)
      (children : list Node) (includeEventHandlers : bool) :
  NodeType_eqb type ElementNode && (data =? "script") = false ->
  AddFromHTML (mkNode type data attr children) includeEventHandlers
  = ((if includeEventHandlers then addEventHandlers attr else ret tt) ;;
     forChildren (fun c => AddFromHTML c includeEventHandlers) children).
Proof.
  intro Hother. cbn [AddFromHTML]. now rewrite Hother.
Qed.

(** X6. On a node that is not a script element the walk stops at the first
    child whose walk returns an error: it returns that error on the policy
    that child left, and the children after it are not walked. *)
Theorem AddFromHTML_fail_fast (type : NodeType) (data : string)
        (attr : list Attribute) (pre post : list Node) (c : Node)
        (includeEventHandlers : bool) (s s1 s2 : ScriptSrc) (e : error) :
  NodeType_eqb type ElementNode && (data =? "script") = false ->
  AddFromHTML (mkNode type data attr pre) includeEventHandlers s
  = Returns (None, s1) ->
  AddFromHTML c includeEventHandlers s1 = Returns (Some e, s2) ->
  AddFromHTML (mkNode type data attr (pre ++ c :: post)) includeEventHandlers s
  = Returns (Some e, s2).
Proof.
  intros Hother Hpre Hc.
  rewrite (AddFromHTML_other _ _ _ _ _ Hother) in Hpre.
  rewrite (AddFromHTML_other _ _ _ _ _ Hother).
  set (handlers := if includeEventHandlers then addEventHandlers attr
                   else ret tt) in *.
  unfold bind in *.
  destruct (handlers s) as [[u s0]|v]; [|discriminate Hpre].
  rewrite forChildren_app. unfold bind. rewrite Hpre.
  rewrite forChildren_cons. unfold bind. now rewrite Hc.
Qed.

Lemma addEventHandlers_none (attrs : list Attribute) (s : ScriptSrc) :
  forallb (fun a => negb (strings.HasPrefix (Key a) "on")) attrs = true ->
  addEventHandlers attrs s = Returns (tt, s).
Proof.
  induction attrs as [|attr attrs IH]; [reflexivity|].
  cbn [forallb addEventHandlers]. intro Hall.
  apply andb_true_iff in Hall. destruct Hall as [Hattr Hrest].
  apply negb_true_iff in Hattr. rewrite Hattr. unfold bind, ret.
  now apply IH.
Qed.

(** X7. A tree without a script element leaves the policy as it is and
    gives no error, whatever the algorithm, when the event handlers are left
    out or the tree has no attribute that begins with [on]. *)
Theorem AddFromHTML_nothing_to_add (n : Node) (includeEventHandlers : bool)
        (s : ScriptSrc) :
  scriptFree n = true ->
  includeEventHandlers = false \/ handlerFree n = true ->
  AddFromHTML n includeEventHandlers s = Returns (None, s).
Proof.
  revert s. induction n as [type data attr children IH] using Node_induction.
  intros s Hfree Hhandlers. cbn [scriptFree] in Hfree.
  apply andb_true_iff in Hfree. destruct Hfree as [Hother Hchildren].
  apply negb_true_iff in Hother.
  rewrite (AddFromHTML_other _ _ _ _ _ Hother). unfold bind.
  assert (Hattrs : (if includeEventHandlers then addEventHandlers attr
                    else ret tt) s = Returns (tt, s)).
  { destruct Hhandlers as [-> | Hh]; [reflexivity|].
    destruct includeEventHandlers; [|reflexivity].
    apply addEventHandlers_none. cbn [handlerFree] in Hh.
    now apply andb_true_iff in Hh. }
  rewrite Hattrs.
  assert (Hsub : includeEventHandlers = false
                 \/ forallb handlerFree children = true).
  { destruct Hhandlers as [-> | Hh]; [now left | right].
    cbn [handlerFree] in Hh. now apply andb_true_iff in Hh. }
  clear Hattrs Hhandlers Hother.
  induction IH as [|c cs Hc _ IHcs]; [reflexivity|].
  cbn [forallb] in Hchildren. apply andb_true_iff in Hchildren.
  destruct Hchildren as [Hcfree Hcsfree].
  assert (Hch : includeEventHandlers = false \/ handlerFree c = true).
  { destruct Hsub as [-> | Hh]; [now left | right].
    cbn [forallb] in Hh. now apply andb_true_iff in Hh. }
  rewrite forChildren_cons. unfold bind. rewrite (Hc s Hcfree Hch).
  apply IHcs; [exact Hcsfree|].
  destruct Hsub as [-> | Hh]; [now left | right].
  cbn [forallb] in Hh. now apply andb_true_iff in Hh.
Qed.

(** *** Walking again *)

Ltac grows_by lemma :=
  apply grows_of_keeps; intro; apply lemma; intro; apply keeps_extends_step;
  first [apply AddInline_extends | apply AddSrc_extends].

Lemma grows_scanSrc (attrs : list Attribute) (hasSrc : bool) :
  grows (scanSrc attrs hasSrc).
Proof. grows_by keeps_scanSrc. Qed.

Lemma grows_addEventHandlers (attrs : list Attribute) :
  grows (addEventHandlers attrs).
Proof. grows_by keeps_addEventHandlers. Qed.

Lemma grows_addInlineScript (children : list Node) :
  grows (addInlineScript children).
Proof. grows_by keeps_addInlineScript. Qed.

Lemma grows_forChildren (includeEventHandlers : bool) (cs : list Node) :
  grows (forChildren (fun c => AddFromHTML c includeEventHandlers) cs).
Proof.
  apply grows_of_keeps. intro s0. apply keeps_forChildren.
  apply Forall_forall. intros c _. apply keeps_extends_step, grows_AddFromHTML.
Qed.

Lemma grows_ret {A : Type} (a : A) : grows (ret a).
Proof. intros s r s' Hrun. injection Hrun as _ <-. apply extends_refl. Qed.

Lemma absorbs_ret {A : Type} (a : A) : absorbs (ret a).
Proof. intros s r s1 t Hrun _. now injection Hrun as <- _. Qed.

Lemma absorbs_bind {A B : Type} (c : M A) (k : A -> M B) :
  absorbs c -> (forall a, grows (k a)) -> (forall a, absorbs (k a)) ->
  absorbs (bind c k).
Proof.
  intros Hc Hgrow Hk s r s1 t Hrun Hcov. unfold bind in *.
  destruct (c s) as [[a sm]|v] eqn:Hcs; [|discriminate Hrun].
  assert (Hmid : covered sm t).
  { eapply covered_trans; [|exact Hcov].
    apply extends_covered. exact (Hgrow a sm r s1 Hrun). }
  rewrite (Hc s a sm t Hcs Hmid). exact (Hk a sm r s1 t Hrun Hcov).
Qed.

Lemma setSelf_true_id (t : ScriptSrc) : Self t = true -> setSelf true t = t.
Proof. destruct t as [self hashes alg hosts others]. simpl. now intros ->. Qed.

Lemma absorbs_AddInline (content : string) : absorbs (AddInline content).
Proof.
  intros s [] s1 t Hrun (Halg & _ & Hhashes & _).
  destruct (AddInline_inv _ _ _ _ Hrun) as (hash & Hhash & Hs1).
  assert (Hin : In hash (Hashes s1)).
  { subst s1. destruct (slices.Contains (Hashes s) hash) eqn:Hc.
    - now apply Contains_In.
    - simpl. apply in_or_app. right. now left. }
  assert (Halg1 : DefaultHashAlgorithm s1 = DefaultHashAlgorithm s).
  { subst s1. now destruct (slices.Contains (Hashes s) hash). }
  rewrite (AddInline_hash content hash t) by congruence.
  apply Hhashes, Contains_In in Hin. now rewrite Hin.
Qed.

Lemma absorbs_AddSrc (srcString : string) : absorbs (AddSrc srcString).
Proof.
  intros s r s1 t Hrun (_ & Hself & _ & Hhosts).
  destruct (url_Parse srcString) as [err|src] eqn:Hparse.
  { unfold AddSrc in *. rewrite Hparse in *. now injection Hrun as <- _. }
  destruct (Scheme src =? "http") eqn:Hhttp.
  { unfold AddSrc in *. rewrite Hparse, Hhttp in *. now injection Hrun as <- _. }
  destruct (Scheme src =? "https") eqn:Hhttps.
  - apply String.eqb_eq in Hhttps.
    rewrite (AddSrc_https _ _ s Hparse Hhttps) in Hrun.
    rewrite (AddSrc_https _ _ t Hparse Hhttps).
    injection Hrun as <- <-.
    assert (Hin : In (hostSource src) (Hosts t)).
    { apply Hhosts. destruct (slices.Contains (Hosts s) (hostSource src)) eqn:Hc.
      - now apply Contains_In.
      - simpl. apply in_or_app. right. now left. }
    apply Contains_In in Hin. now rewrite Hin.
  - unfold AddSrc in *. rewrite Hparse, Hhttp, Hhttps in *.
    destruct (Scheme src =? ""); injection Hrun as <- <-; [|reflexivity].
    unfold bind, modify. simpl. rewrite setSelf_true_id; [reflexivity|].
    now apply Hself.
Qed.

Lemma absorbs_scanSrc (attrs : list Attribute) (hasSrc : bool) :
  absorbs (scanSrc attrs hasSrc).
Proof.
  revert hasSrc; induction attrs as [|attr attrs IH]; intro hasSrc; simpl.
  - apply absorbs_ret.
  - destruct (Key attr =? "src"); [|apply IH].
    destruct hasSrc; [apply absorbs_ret|].
    apply absorbs_bind;
      [apply absorbs_AddSrc | intros _; apply grows_scanSrc | intros _; apply IH].
Qed.

Lemma absorbs_addEventHandlers (attrs : list Attribute) :
  absorbs (addEventHandlers attrs).
Proof.
  induction attrs as [|attr attrs IH]; simpl.
  - apply absorbs_ret.
  - apply absorbs_bind;
      [|intros _; apply grows_addEventHandlers | intros _; exact IH].
    destruct (strings.HasPrefix _ _); [apply absorbs_AddInline | apply absorbs_ret].
Qed.

Lemma absorbs_addInlineScript (children : list Node) :
  absorbs (addInlineScript children).
Proof.
  destruct children as [|content siblings]; simpl; [apply absorbs_ret|].
  destruct (negb _); [apply absorbs_ret|].
  destruct (_ || _); [apply absorbs_ret|].
  apply absorbs_bind;
    [apply absorbs_AddInline | intros _; apply grows_ret | intros _; apply absorbs_ret].
Qed.

Lemma absorbs_AddFromHTML (n : Node) (includeEventHandlers : bool) :
  absorbs (AddFromHTML n includeEventHandlers).
Proof.
  induction n as [type data attr children IH] using Node_induction.
  cbn [AddFromHTML]. destruct (_ && _).
  - apply absorbs_bind; [apply absorbs_scanSrc | |].
    + intros [err|[|]];
        [apply grows_ret | apply grows_ret | apply grows_addInlineScript].
    + intros [err|[|]];
        [apply absorbs_ret | apply absorbs_ret | apply absorbs_addInlineScript].
  - apply absorbs_bind.
    + destruct includeEventHandlers;
        [apply absorbs_addEventHandlers | apply absorbs_ret].
    + intros _. apply grows_forChildren.
    + intros _. induction IH as [|c cs Hc _ IHcs].
      * apply absorbs_ret.
      * rewrite forChildren_cons. apply absorbs_bind; [exact Hc | |].
        -- intros [e|]; [apply grows_ret | apply grows_forChildren].
        -- intros [e|]; [apply absorbs_ret | exact IHcs].
Qed.

Lemma absorbs_AddFromHTMLFile (path : string) (includeEventHandlers : bool) :
  absorbs (AddFromHTMLFile path includeEventHandlers).
Proof.
  unfold AddFromHTMLFile.
  destruct (os_Open path) as [err|f]; [apply absorbs_ret|].
  destruct (html_Parse f) as [err|doc]; [apply absorbs_ret|].
  apply absorbs_bind; [apply absorbs_AddFromHTML | |].
  - intros [e|]; apply grows_ret.
  - intros [e|]; apply absorbs_ret.
Qed.

(** X8. Walking a tree again is without effect: on the policy a walk of
    the tree left, and on every policy with the same algorithm that holds
    at least its hashes and hosts (and [Self], if set), the walk returns the
    same result and leaves the policy as it is. *)
Theorem AddFromHTML_again (n : Node) (includeEventHandlers : bool)
        (s s1 t : ScriptSrc) (r : option error) :
  AddFromHTML n includeEventHandlers s = Returns (r, s1) ->
  DefaultHashAlgorithm t = DefaultHashAlgorithm s1
  /\ (Self s1 = true -> Self t = true)
  /\ incl (Hashes s1) (Hashes t)
  /\ incl (Hosts s1) (Hosts t) ->
  AddFromHTML n includeEventHandlers t = Returns (r, t)
  /\ AddFromHTML n includeEventHandlers s1 = Returns (r, s1).
Proof.
  intros Hrun Hcov. split.
  - exact (absorbs_AddFromHTML n includeEventHandlers s r s1 t Hrun Hcov).
  - apply (absorbs_AddFromHTML n includeEventHandlers s r s1 s1 Hrun).
    apply extends_covered, extends_refl.
Qed.

Lemma Processed_grows (includeEventHandlers : bool) (paths : list string)
      (s s' : ScriptSrc) (errors : list error) :
  Processed includeEventHandlers paths s errors s' -> extends s s'.
Proof.
  intro Hall.
  apply (keeps_Processed (extends s)) with (1 := fun c => keeps_extends_step _ s (AddInline_extends c))
                                           (2 := fun v => keeps_extends_step _ s (AddSrc_extends v))
                                           (3 := Hall).
  apply extends_refl.
Qed.

Lemma Processed_absorbs (includeEventHandlers : bool) (paths : list string)
      (s s1 t : ScriptSrc) (errors : list error) :
  Processed includeEventHandlers paths s errors s1 -> covered s1 t ->
  Processed includeEventHandlers paths t errors t.
Proof.
  induction 1 as [s|path paths s sa sb errors Hrun Hrest IH
                   |path paths s sa sb e errors Hrun Hrest IH]; intro Hcov.
  - constructor.
  - assert (Hmid : covered sa t).
    { eapply covered_trans; [|exact Hcov].
      apply extends_covered. exact (Processed_grows _ _ _ _ _ Hrest). }
    eapply Processed_ok; [|exact (IH Hcov)].
    exact (absorbs_AddFromHTMLFile _ _ _ _ _ _ Hrun Hmid).
  - assert (Hmid : covered sa t).
    { eapply covered_trans; [|exact Hcov].
      apply extends_covered. exact (Processed_grows _ _ _ _ _ Hrest). }
    eapply Processed_failed; [|exact (IH Hcov)].
    exact (absorbs_AddFromHTMLFile _ _ _ _ _ _ Hrun Hmid).
Qed.

(** X9. Paths given twice do not change a successful result: when
    [ScriptSrcFromHTMLFiles] returns a policy for some paths, it returns the
    same policy for those paths followed by the same paths again. *)
Theorem ScriptSrcFromHTMLFiles_paths_twice (paths : list string)
        (includeEventHandlers : bool) (s : ScriptSrc) :
  ScriptSrcFromHTMLFiles paths includeEventHandlers = Returns (Some s, None) ->
  ScriptSrcFromHTMLFiles (paths ++ paths)%list includeEventHandlers
  = Returns (Some s, None).
Proof.
  destruct (collectFiles_Processed includeEventHandlers paths _ Inv_zero)
    as (errors & s' & Hall & Hloop).
  unfold ScriptSrcFromHTMLFiles at 1. rewrite Hloop. simpl.
  destruct errors as [|e [|e' rest]]; intro Hrun; try discriminate Hrun.
  injection Hrun as <-.
  assert (Hsecond : Processed includeEventHandlers paths s' [] s').
  { apply (Processed_absorbs _ _ _ _ _ _ Hall).
    apply extends_covered, extends_refl. }
  pose proof (Processed_app _ _ _ _ _ _ _ _ Hall Hsecond) as Hboth.
  destruct (collectFiles_Processed includeEventHandlers (paths ++ paths)%list
              _ Inv_zero) as (errors2 & s2 & Hall2 & Hloop2).
  destruct (Processed_deterministic _ _ _ _ _ _ _ Hall2 Hboth) as [-> ->].
  unfold ScriptSrcFromHTMLFiles. now rewrite Hloop2.
Qed.

(** *** With and without the event handlers *)

Lemma sameButHashes_refl (s : ScriptSrc) : sameButHashes s s.
Proof. repeat split. apply incl_refl. Qed.

Lemma adds_ret {A : Type} (a : A) : addsOnlyHashes (ret a) (ret a).
Proof.
  intros s t r s' _ Hsame Hrun. injection Hrun as <- <-. now exists t.
Qed.

Lemma adds_bind {A B : Type} (c1 c2 : M A) (k1 k2 : A -> M B) :
  addsOnlyHashes c1 c2 -> grows c1 ->
  (forall a, addsOnlyHashes (k1 a) (k2 a)) ->
  addsOnlyHashes (bind c1 k1) (bind c2 k2).
Proof.
  intros Hc Hgrow Hk s t r s' Hsup Hsame Hrun. unfold bind in *.
  destruct (c1 s) as [[a sm]|v] eqn:Hcs; [|discriminate Hrun].
  destruct (Hc s t a sm Hsup Hsame Hcs) as (tm & Hct & Hmid).
  rewrite Hct. apply (Hk a sm tm r s'); [|exact Hmid | exact Hrun].
  destruct (Hgrow s a sm Hcs) as (Halg & _). now rewrite Halg.
Qed.

Lemma adds_AddInline (content : string) :
  addsOnlyHashes (AddInline content) (AddInline content).
Proof.
  intros s t [] s' _ (Hself & Hhosts & Hothers & Halg & Hincl) Hrun.
  destruct (AddInline_inv _ _ _ _ Hrun) as (hash & Hhash & ->).
  rewrite (AddInline_hash content hash t) by congruence.
  eexists. split; [reflexivity|].
  destruct (slices.Contains (Hashes s) hash) eqn:Hs,
           (slices.Contains (Hashes t) hash) eqn:Ht;
    repeat split; simpl; try assumption.
  - now apply incl_appl.
  - intros x Hx. apply in_app_or in Hx. destruct Hx as [Hx|[<-|[]]].
    + now apply Hincl.
    + now apply Contains_In.
  - apply incl_app; [now apply incl_appl | apply incl_appr, incl_refl].
Qed.

(** With a named algorithm an [AddInline] more only adds a hash. *)
Lemma adds_extra_AddInline (content : string) (s t : ScriptSrc) :
  supported (DefaultHashAlgorithm s) -> sameButHashes s t ->
  exists t', AddInline content t = Returns (tt, t') /\ sameButHashes s t'.
Proof.
  intros Hsup (Hself & Hhosts & Hothers & Halg & Hincl).
  rewrite <- Halg in Hsup.
  destruct (inlineHash_supported _ content Hsup) as (hash & Hhash).
  rewrite (AddInline_hash _ _ _ Hhash). eexists. split; [reflexivity|].
  destruct (slices.Contains (Hashes t) hash); repeat split; simpl;
    try assumption.
  now apply incl_appl.
Qed.

Lemma adds_AddSrc (srcString : string) :
  addsOnlyHashes (AddSrc srcString) (AddSrc srcString).
Proof.
  intros s t r s' _ (Hself & Hhosts & Hothers & Halg & Hincl) Hrun.
  unfold AddSrc in *. destruct (url_Parse srcString) as [err|src].
  { injection Hrun as <- <-. exists t. now repeat split. }
  destruct (Scheme src =? "http").
  { injection Hrun as <- <-. exists t. now repeat split. }
  destruct (Scheme src =? "https").
  - unfold bind, get, modify, ret in *. simpl in *. rewrite Hhosts.
    destruct (slices.Contains (Hosts s) (hostSource src)); simpl in *;
      injection Hrun as <- <-; eexists; (split; [reflexivity|]);
      repeat split; simpl; first [assumption | congruence].
  - destruct (Scheme src =? ""); injection Hrun as <- <-;
      eexists; (split; [reflexivity|]); now repeat split.
Qed.

Lemma adds_scanSrc (attrs : list Attribute) (hasSrc : bool) :
  addsOnlyHashes (scanSrc attrs hasSrc) (scanSrc attrs hasSrc).
Proof.
  revert hasSrc; induction attrs as [|attr attrs IH]; intro hasSrc; simpl.
  - apply adds_ret.
  - destruct (Key attr =? "src"); [|apply IH].
    destruct hasSrc; [apply adds_ret|].
    apply adds_bind; [apply adds_AddSrc | apply AddSrc_extends | intros _; apply IH].
Qed.

Lemma adds_addInlineScript (children : list Node) :
  addsOnlyHashes (addInlineScript children) (addInlineScript children).
Proof.
  destruct children as [|content siblings]; simpl; [apply adds_ret|].
  destruct (negb _); [apply adds_ret|].
  destruct (_ || _); [apply adds_ret|].
  apply adds_bind;
    [apply adds_AddInline | apply AddInline_extends | intros _; apply adds_ret].
Qed.

Lemma adds_addEventHandlers (attrs : list Attribute) :
  addsOnlyHashes (ret tt) (addEventHandlers attrs).
Proof.
  induction attrs as [|attr attrs IH]; [apply adds_ret|].
  intros s t r s' Hsup Hsame Hrun. cbn [addEventHandlers]. unfold bind.
  destruct (strings.HasPrefix (Key attr) "on").
  - destruct (adds_extra_AddInline (Val attr) s t Hsup Hsame)
      as (t1 & Hadd & Hsame1).
    rewrite Hadd. exact (IH s t1 r s' Hsup Hsame1 Hrun).
  - exact (IH s t r s' Hsup Hsame Hrun).
Qed.

Lemma adds_AddFromHTML (n : Node) :
  addsOnlyHashes (AddFromHTML n false) (AddFromHTML n true).
Proof.
  induction n as [type data attr children IH] using Node_induction.
  cbn [AddFromHTML]. destruct (_ && _).
  - apply adds_bind; [apply adds_scanSrc | apply grows_scanSrc|].
    intros [err|[|]];
      [apply adds_ret | apply adds_ret | apply adds_addInlineScript].
  - apply adds_bind; [apply adds_addEventHandlers | apply grows_ret|].
    intros _. induction IH as [|c cs Hc _ IHcs]; [apply adds_ret|].
    rewrite !forChildren_cons.
    apply adds_bind; [exact Hc | apply grows_AddFromHTML|].
    intros [e|]; [apply adds_ret | exact IHcs].
Qed.

(** X10. Under [Sha512] or [Sha256], including the event handlers changes
    nothing but the hashes: the walk with them returns whenever the walk
    without them does, with the same error or none, the same [Self], [Hosts]
    and [Others], and every hash the walk without them has. *)
Theorem event_handlers_only_add_hashes (n : Node) (s s' : ScriptSrc)
        (r : option error) :
  supported (DefaultHashAlgorithm s) ->
  AddFromHTML n false s = Returns (r, s') ->
  exists t',
    AddFromHTML n true s = Returns (r, t')
    /\ Self t' = Self s' /\ Hosts t' = Hosts s' /\ Others t' = Others s'
    /\ incl (Hashes s') (Hashes t').
Proof.
  intros Hsup Hrun.
  destruct (adds_AddFromHTML n s s r s' Hsup (sameButHashes_refl s) Hrun)
    as (t' & Hwith & Hself & Hhosts & Hothers & _ & Hincl).
  exists t'. now repeat split.
Qed.

(** *** One file *)

(** X11. For one path [ScriptSrcFromHTMLFiles] is [ScriptSrcFromHTMLFile]
    with one difference: on an error it returns no policy, where
    [ScriptSrcFromHTMLFile] returns the policy as the failed walk left it;
    the error is the same, not wrapped. *)
Theorem ScriptSrcFromHTMLFiles_one_path (path : string)
        (includeEventHandlers : bool) :
  ScriptSrcFromHTMLFiles [path] includeEventHandlers
  = match ScriptSrcFromHTMLFile path includeEventHandlers with
    | Returns (scriptSrc, None) => Returns (Some scriptSrc, None)
    | Returns (_, Some e) => Returns (None, Some e)
    | Panics v => Panics v
    end.
Proof.
  unfold ScriptSrcFromHTMLFiles, ScriptSrcFromHTMLFile. cbn [collectFiles].
  unfold bind.
  now destruct (AddFromHTMLFile path includeEventHandlers zeroScriptSrc)
    as [[[e|] s]|v].
Qed.

(** X12. An error of [AddFromHTMLFile] is the error of [os.Open] as it is,
    or the error of [html.Parse] with the path around it, both on an
    untouched policy, or the error of the walk with the path around it. *)
Theorem AddFromHTMLFile_errors (path : string) (includeEventHandlers : bool)
        (s s' : ScriptSrc) (e : error) :
  AddFromHTMLFile path includeEventHandlers s = Returns (Some e, s') ->
  (os_Open path = inl e /\ s' = s)
  \/ (exists f err,
        os_Open path = inr f /\ html_Parse f = inl err
        /\ e = ErrParseHTML path err /\ s' = s)
  \/ (exists f doc e0,
        os_Open path = inr f /\ html_Parse f = inr doc
        /\ AddFromHTML doc includeEventHandlers s = Returns (Some e0, s')
        /\ e = ErrProcess path e0).
Proof.
  unfold AddFromHTMLFile. destruct (os_Open path) as [err|f].
  { intro Hrun. injection Hrun as <- <-. now left. }
  destruct (html_Parse f) as [err|doc] eqn:Hparse.
  { intro Hrun. injection Hrun as <- <-. right. left. now exists f, err. }
  unfold bind.
  destruct (AddFromHTML doc includeEventHandlers s) as [[[e0|] s1]|v] eqn:Hwalk;
    intro Hrun; try discriminate Hrun.
  injection Hrun as <- <-. right. right. now exists f, doc, e0.
Qed.

(** *** Tokens that can stand between quotes *)




End Further.

(** *** The entry point over a pattern *)

Section Pattern.

Context {libs : Collaborators} {glob : Globbing}.

(** X14. [ScriptSrcFromHTMLFileGlob] returns on every pattern.  An error of
    [filepath.Glob] comes back as it is, with no policy; a pattern that
    matches no file gives the empty policy and no error; otherwise the
    result is that of [ScriptSrcFromHTMLFiles] on the matches. *)
Theorem ScriptSrcFromHTMLFileGlob_cases (pattern : string)
        (includeEventHandlers : bool) :
  exists result,
    ScriptSrcFromHTMLFileGlob pattern includeEventHandlers = Returns result
    /\ match filepath_Glob pattern with
       | inl err => result = (None, Some err)
       | inr [] => result = (Some zeroScriptSrc, None)
       | inr files =>
           ScriptSrcFromHTMLFiles files includeEventHandlers = Returns result
       end.
Proof.
  unfold ScriptSrcFromHTMLFileGlob.
  destruct (filepath_Glob pattern) as [err|files]; [eauto|].
  destruct (collectFiles_Processed includeEventHandlers files _ Inv_zero)
    as (errors & s' & _ & Hloop).
  unfold ScriptSrcFromHTMLFiles. rewrite Hloop. simpl.
  destruct files as [|file files].
  - specialize (Hloop []). simpl in Hloop. injection Hloop as <- <-. eauto.
  - destruct errors as [|e [|e' rest]]; eauto.
Qed.

End Pattern.

(** *** The command *)

Section Command.

Context {libs : Collaborators} {templates : Templates}.

Lemma argParser_step (n : nat) :
  forall args o o' paths,
    length args <= n ->
    cli.argParser args o = cli.Args o' paths ->
    (exists flags, args = (flags ++ paths)%list)
    /\ match paths with
       | [] => True
       | path :: _ => strings.HasPrefix path "--" = false
       end
    /\ (supported (cli.hashAlgorithm o) -> supported (cli.hashAlgorithm o'))
    /\ (cli.hashAlgorithm o' = Sha256 ->
        cli.hashAlgorithm o = Sha256 \/ In "--sha256" args)
    /\ (cli.verbose o' = false ->
        cli.verbose o = false \/ In "--quiet" args).
Proof.
  induction n as [|n IH]; intros args o o' paths Hlen Hparse.
  { destruct args; [|simpl in Hlen; lia]. simpl in Hparse.
    injection Hparse as <- <-. repeat split; auto. now exists []. }
  destruct args as [|arg rest].
  { simpl in Hparse. injection Hparse as <- <-. repeat split; auto.
    now exists []. }
  simpl in Hlen. cbn [cli.argParser] in Hparse.
  destruct ((arg =? "--help") || (arg =? "-h")); [discriminate Hparse|].
  assert (Hlift : forall rest' o1,
             length rest' <= n ->
             cli.argParser rest' o1 = cli.Args o' paths ->
             (exists skipped, (arg :: rest) = (skipped ++ rest')%list) ->
             (supported (cli.hashAlgorithm o) -> supported (cli.hashAlgorithm o1)) ->
             (cli.hashAlgorithm o1 = Sha256 ->
              cli.hashAlgorithm o = Sha256 \/ In "--sha256" (arg :: rest)) ->
             (cli.verbose o1 = false ->
              cli.verbose o = false \/ In "--quiet" (arg :: rest)) ->
             (exists flags, (arg :: rest) = (flags ++ paths)%list)
             /\ match paths with
                | [] => True
                | path :: _ => strings.HasPrefix path "--" = false
                end
             /\ (supported (cli.hashAlgorithm o) ->
                 supported (cli.hashAlgorithm o'))
             /\ (cli.hashAlgorithm o' = Sha256 ->
                 cli.hashAlgorithm o = Sha256 \/ In "--sha256" (arg :: rest))
             /\ (cli.verbose o' = false ->
                 cli.verbose o = false \/ In "--quiet" (arg :: rest))).
  { intros rest' o1 Hlen' Hrest (skipped & Hskip) Hsup Halg Hverbose.
    destruct (IH rest' o1 o' paths Hlen' Hrest)
      as ((flags & Hflags) & Hfirst & Hsup' & Halg' & Hverbose').
    assert (Hin : forall x, In x rest' -> In x (arg :: rest)).
    { intros x Hx. rewrite Hskip. apply in_or_app. now right. }
    split; [|split; [exact Hfirst|split; [auto|split]]].
    - exists (skipped ++ flags)%list. now rewrite Hskip, Hflags, app_assoc.
    - intro H. destruct (Halg' H) as [H1|H1]; [auto | right; auto].
    - intro H. destruct (Hverbose' H) as [H1|H1]; [auto | right; auto]. }
  destruct (arg =? "--quiet") eqn:Hquiet.
  { apply String.eqb_eq in Hquiet. subst arg.
    apply (Hlift rest _ ltac:(lia) Hparse).
    - now exists ["--quiet"].
    - simpl. auto.
    - simpl. auto.
    - intros _. right. now left. }
  destruct (arg =? "--sha512") eqn:H512.
  { destruct (_ && _); [discriminate Hparse|].
    apply (Hlift rest _ ltac:(lia) Hparse).
    - now exists [arg].
    - intros _. now left.
    - simpl. discriminate.
    - simpl. auto. }
  destruct (arg =? "--sha256") eqn:H256.
  { apply String.eqb_eq in H256. subst arg.
    destruct (_ && _); [discriminate Hparse|].
    apply (Hlift rest _ ltac:(lia) Hparse).
    - now exists ["--sha256"].
    - intros _. now right.
    - intros _. right. now left.
    - simpl. auto. }
  destruct (arg =? "--csp-template-file").
  { destruct rest as [|value rest']; [discriminate Hparse|]. simpl in Hlen.
    apply (Hlift rest' _ ltac:(lia) Hparse).
    - now exists [arg; value].
    - simpl. auto.
    - simpl. auto.
    - simpl. auto. }
  destruct (arg =? "--csp-template-string").
  { destruct rest as [|value rest']; [discriminate Hparse|]. simpl in Hlen.
    apply (Hlift rest' _ ltac:(lia) Hparse).
    - now exists [arg; value].
    - simpl. auto.
    - simpl. auto.
    - simpl. auto. }
  destruct (strings.HasPrefix arg "--") eqn:Hdashes; [discriminate Hparse|].
  injection Hparse as <- <-. repeat split; auto. now exists [].
Qed.

(** X15. When the argument loop ends with paths, the paths are the end of
    the arguments as they were given, and the first of them does not begin
    with two hyphens (the ones after it may); the algorithm is [Sha512] or
    [Sha256], and [Sha256] only if [--sha256] is among the arguments; the
    paths are not announced only if [--quiet] is. *)
Theorem argParser_result (args : list string) (o : cli.Options)
        (paths : list string) :
  cli.argParser args cli.defaults = cli.Args o paths ->
  (exists flags, args = (flags ++ paths)%list)
  /\ match paths with
     | [] => True
     | path :: _ => strings.HasPrefix path "--" = false
     end
  /\ supported (cli.hashAlgorithm o)
  /\ (cli.hashAlgorithm o = Sha256 -> In "--sha256" args)
  /\ (cli.verbose o = false -> In "--quiet" args).
Proof.
  intro Hparse.
  destruct (argParser_step (length args) args cli.defaults o paths
              (le_n _) Hparse) as (Hflags & Hfirst & Hsup & Halg & Hverbose).
  split; [exact Hflags|]. split; [exact Hfirst|]. split; [|split].
  - apply Hsup. now left.
  - intro H. destruct (Halg H) as [H1|H1]; [discriminate H1 | exact H1].
  - intro H. destruct (Hverbose H) as [H1|H1]; [discriminate H1 | exact H1].
Qed.

Lemma processPaths_Processed (verbose : bool) (paths : list string)
      (s s' : ScriptSrc) (errors : list error) :
  Processed true paths s errors s' ->
  forall errored log,
  exists log',
    cli.processPaths verbose paths errored log s
    = Returns ((errored || negb (Nat.eqb (length errors) 0), log'), s')
    /\ (forall e, In e errors -> In (Error e) log')
    /\ (forall line, In line log -> In line log')
    /\ (verbose = false -> log' = (log ++ map Error errors)%list)
    /\ (errors = [] ->
        log' = (log ++ if verbose
                       then map (fun path => ("> " ++ path)%string) paths
                       else [])%list).
Proof.
  induction 1 as [s|path paths s sa sb errors Hrun _ IH
                   |path paths s sa sb e errors Hrun _ IH]; intros errored log.
  - exists log. simpl. rewrite orb_false_r.
    repeat split; auto; try (intros e []);
      destruct verbose; now rewrite app_nil_r.
  - cbn [cli.processPaths]. unfold bind. rewrite Hrun.
    destruct (IH errored
                 (if verbose then (log ++ [("> " ++ path)%string])%list else log))
      as (log' & Hloop & Herrors & Hlog & Hquiet & Hclean).
    exists log'. split; [exact Hloop|]. split; [exact Herrors|]. split; [|split].
    + intros line Hline. apply Hlog.
      destruct verbose; [apply in_or_app; now left | exact Hline].
    + intros ->. now apply Hquiet.
    + intros ->. rewrite (Hclean eq_refl).
      destruct verbose; simpl; [now rewrite <- app_assoc | reflexivity].
  - cbn [cli.processPaths]. unfold bind. rewrite Hrun.
    destruct (IH true
                 ((if verbose then (log ++ [("> " ++ path)%string])%list else log)
                    ++ [Error e])%list)
      as (log' & Hloop & Herrors & Hlog & Hquiet & Hclean).
    exists log'. split; [|split; [|split; [|split]]].
    + rewrite Hloop. simpl. now rewrite orb_true_r.
    + intros x [<-|Hx]; [|now apply Herrors].
      apply Hlog, in_or_app. right. now left.
    + intros line Hline. apply Hlog, in_or_app. left.
      destruct verbose; [apply in_or_app; now left | exact Hline].
    + intros ->. rewrite (Hquiet eq_refl). simpl. now rewrite <- app_assoc.
    + discriminate.
Qed.

Lemma Inv_initial (o : cli.Options) :
  supported (cli.hashAlgorithm o) -> Inv (cli.initial o).
Proof. intro Hsup. repeat split; [exact Hsup | constructor | constructor]. Qed.

(** X16. The command returns on every argument list: the panic of
    [AddInline] is out of its reach, since the argument loop hands it no
    algorithm but [Sha512] and [Sha256]. *)
Theorem main_returns (program : string) (args : list string) :
  exists run, cli.main program args = Returns run.
Proof.
  unfold cli.main.
  destruct (cli.argParser args cli.defaults) as [| msg | o paths] eqn:Hparse;
    [eauto | eauto |].
  destruct (argParser_step (length args) args cli.defaults o paths
              (le_n _) Hparse) as (_ & _ & Hsup & _).
  assert (Hinv : Inv (cli.initial o)) by (apply Inv_initial, Hsup; now left).
  destruct (collectFiles_Processed true paths _ Hinv)
    as (errors & s' & Hall & _).
  destruct (processPaths_Processed (cli.verbose o) _ _ _ _ Hall false [])
    as (log & Hloop & _).
  rewrite Hloop. destruct (_ || _); eauto.
Qed.

(** X17. What the command reports follows the files.  When a file fails,
    the exit status is 1, nothing is written to the standard output, and the
    message of every failing file is on the standard error (with [--quiet],
    nothing else is).  When none fails, the command ends with its report on
    the policy of all the paths, and without a template option that is one
    line, the [String] of the policy, and the exit status 0. *)
Theorem main_reports (program : string) (args paths : list string)
        (o : cli.Options) (errors : list error) (s' : ScriptSrc) :
  cli.argParser args cli.defaults = cli.Args o paths ->
  Processed true paths (cli.initial o) errors s' ->
  match errors with
  | [] =>
      let log := if cli.verbose o then map (fun path => "> " ++ path) paths
                 else [] in
      cli.main program args = Returns (cli.report o log s')
      /\ (cli.cspTemplateFile o = "" -> cli.cspTemplateString o = "" ->
          cli.report o log s'
          = cli.mkRun [cli.Line (ScriptSrc_String s')] log 0)
  | _ :: _ =>
      exists log,
        cli.main program args = Returns (cli.mkRun [] log 1)
        /\ (forall e, In e errors -> In (Error e) log)
        /\ (cli.verbose o = false -> log = map Error errors)
  end.
Proof.
  intros Hparse Hall. unfold cli.main. rewrite Hparse.
  destruct (processPaths_Processed (cli.verbose o) _ _ _ _ Hall false [])
    as (log & Hloop & Herrors & _ & Hquiet & Hclean).
  rewrite Hloop. destruct errors as [|e errors]; simpl.
  - rewrite (Hclean eq_refl). simpl. split; [reflexivity|].
    intros Hfile Hstring. unfold cli.report, cli.chooseTemplate.
    now rewrite Hfile, Hstring.
  - exists log. split; [reflexivity|]. split; [exact Herrors|].
    intro Hq. now rewrite (Hquiet Hq).
Qed.

End Command.

(** *** No panic and no duplicate *)

Section Invariant.

Context {libs : Collaborators}.

(** X18. On a policy with [Sha512] or [Sha256] and without a hash or a
    host twice, the walk of any tree returns (it ends and does not panic),
    and the policy it leaves has the same algorithm and again no hash and no
    host twice. *)
Theorem AddFromHTML_keeps_no_duplicates (n : Node) (includeEventHandlers : bool)
        (s : ScriptSrc) :
  supported (DefaultHashAlgorithm s) -> NoDup (Hashes s) -> NoDup (Hosts s) ->
  exists r s',
    AddFromHTML n includeEventHandlers s = Returns (r, s')
    /\ DefaultHashAlgorithm s' = DefaultHashAlgorithm s
    /\ NoDup (Hashes s') /\ NoDup (Hosts s').
Proof.
  intros Hsup Hhashes Hhosts.
  destruct (preserves_AddFromHTML n includeEventHandlers s
              (conj Hsup (conj Hhashes Hhosts)))
    as (r & s' & Hrun & (_ & Hh & Hg) & Halg).
  exists r, s'. now repeat split.
Qed.

End Invariant.

(** *** The further theorems at concrete inputs *)

Lemma AddFromHTML_only_appends_witness :
  DefaultHashAlgorithm (setHosts ["https://example.org"; "https://cdn.example.com"]
                                 zeroScriptSrc) = Sha512
  /\ Others (setHosts ["https://example.org"; "https://cdn.example.com"]
                      zeroScriptSrc) = []
  /\ (Self (setHosts ["https://example.org"] zeroScriptSrc) = true ->
      Self (setHosts ["https://example.org"; "https://cdn.example.com"]
                     zeroScriptSrc) = true)
  /\ (exists more : list string, @nil string = ([] ++ more)%list)
  /\ (exists more,
        ["https://example.org"; "https://cdn.example.com"]
        = (["https://example.org"] ++ more)%list).
Proof.
  exact (AddFromHTML_only_appends (libs := goLibs) twoSrcHTML false
           (setHosts ["https://example.org"] zeroScriptSrc)
           (setHosts ["https://example.org"; "https://cdn.example.com"]
                     zeroScriptSrc)
           (Some (ErrSecondSrc "b.js")) eq_refl).
Defined.

Lemma AddFromHTML_entries_well_formed_witness :
  Forall (fun hash => String.prefix "sha512-" hash = true
                      \/ String.prefix "sha256-" hash = true) [helloHash]
  /\ Forall (fun host => String.prefix "https://" host = true)
            ["https://example.org"].
Proof.
  apply (AddFromHTML_entries_well_formed (libs := goLibs) buttonHTML true
           (setHosts ["https://example.org"] zeroScriptSrc)
           (mkScriptSrc false [helloHash] Sha512 ["https://example.org"] [])
           None).
  - split; repeat constructor.
  - vm_compute. reflexivity.
Defined.

Lemma ScriptSrcFromHTMLFiles_policy_shape_witness :
  (@None error) = None
  /\ DefaultHashAlgorithm documentationPolicy = Sha512
  /\ Others documentationPolicy = []
  /\ NoDup (Hashes documentationPolicy) /\ NoDup (Hosts documentationPolicy)
  /\ Forall (fun hash => String.prefix "sha512-" hash = true)
            (Hashes documentationPolicy)
  /\ Forall (fun host => String.prefix "https://" host = true)
            (Hosts documentationPolicy).
Proof.
  apply (ScriptSrcFromHTMLFiles_policy_shape (libs := goLibs)
           ["index.html"; "just-self.html"] true documentationPolicy None).
  vm_compute. reflexivity.
Defined.

Lemma AddInline_unsupported_panics_witness :
  AddInline (libs := goLibs) "run()" (mkScriptSrc false [] x02 [] [])
  = Panics (ErrInvalidHashAlgorithm x02)
  /\ AddFromHTML (libs := goLibs) (element "script" [] [text "run()"]) true
       (mkScriptSrc false [] x02 [] [])
     = Panics (ErrInvalidHashAlgorithm x02).
Proof.
  assert (Hnot : ~ supported (DefaultHashAlgorithm (mkScriptSrc false [] x02 [] []))).
  { intros [H|H]; discriminate H. }
  destruct (AddInline_unsupported_panics (libs := goLibs) "run()"
              (element "script" [] [text "run()"]) true
              (mkScriptSrc false [] x02 [] []) Hnot) as [Hinline Hwalk].
  split; [exact Hinline|].
  apply Hwalk; [split; reflexivity | reflexivity | reflexivity].
Defined.

Lemma AddFromHTML_fail_fast_witness :
  AddFromHTML (libs := goLibs)
    (element "body" []
       [element "script" [attribute "src" "foo.js"] [];
        element "script" [] [];
        element "script" [attribute "src" "https://cdn.example.com/a.js"] []])
    true zeroScriptSrc
  = Returns (Some ErrNoContent, setSelf true zeroScriptSrc).
Proof.
  apply (AddFromHTML_fail_fast (libs := goLibs) ElementNode "body" []
           [element "script" [attribute "src" "foo.js"] []]
           [element "script" [attribute "src" "https://cdn.example.com/a.js"] []]
           (element "script" [] []) true
           zeroScriptSrc (setSelf true zeroScriptSrc) (setSelf true zeroScriptSrc)
           ErrNoContent); reflexivity.
Defined.

Lemma AddFromHTML_nothing_to_add_witness :
  AddFromHTML (libs := goLibs)
    (page [] [element "p" [attribute "class" "on"] [text "Hello"]]) true
    (mkScriptSrc false [] x02 [] ["'unsafe-inline'"])
  = Returns (None, mkScriptSrc false [] x02 [] ["'unsafe-inline'"]).
Proof.
  apply (AddFromHTML_nothing_to_add (libs := goLibs)
           (page [] [element "p" [attribute "class" "on"] [text "Hello"]]) true
           (mkScriptSrc false [] x02 [] ["'unsafe-inline'"])).
  - reflexivity.
  - right. reflexivity.
Defined.

Lemma AddFromHTML_again_witness :
  AddFromHTML (libs := goLibs) twoSrcHTML false
    (mkScriptSrc true ["sha256-x"] Sha512
                 ["https://a.example"; "https://cdn.example.com"] ["'unsafe-eval'"])
  = Returns (Some (ErrSecondSrc "b.js"),
             mkScriptSrc true ["sha256-x"] Sha512
                         ["https://a.example"; "https://cdn.example.com"]
                         ["'unsafe-eval'"])
  /\ AddFromHTML (libs := goLibs) twoSrcHTML false
       (setHosts ["https://cdn.example.com"] zeroScriptSrc)
     = Returns (Some (ErrSecondSrc "b.js"),
                setHosts ["https://cdn.example.com"] zeroScriptSrc).
Proof.
  apply (AddFromHTML_again (libs := goLibs) twoSrcHTML false zeroScriptSrc
           (setHosts ["https://cdn.example.com"] zeroScriptSrc)
           (mkScriptSrc true ["sha256-x"] Sha512
                        ["https://a.example"; "https://cdn.example.com"]
                        ["'unsafe-eval'"])
           (Some (ErrSecondSrc "b.js"))).
  - reflexivity.
  - simpl. split; [reflexivity|]. split; [discriminate|]. split.
    + intros x [].
    + intros x [<-|[]]. right. now left.
Defined.

Lemma ScriptSrcFromHTMLFiles_paths_twice_witness :
  ScriptSrcFromHTMLFiles (libs := goLibs)
    ["index.html"; "just-self.html"; "index.html"; "just-self.html"] true
  = Returns (Some documentationPolicy, None).
Proof.
  apply (ScriptSrcFromHTMLFiles_paths_twice (libs := goLibs)
           ["index.html"; "just-self.html"] true documentationPolicy).
  vm_compute. reflexivity.
Defined.

Lemma event_handlers_only_add_hashes_witness :
  exists t',
    AddFromHTML (libs := goLibs) buttonHTML true zeroScriptSrc = Returns (None, t')
    /\ Self t' = false /\ Hosts t' = [] /\ Others t' = []
    /\ incl [] (Hashes t').
Proof.
  apply (event_handlers_only_add_hashes (libs := goLibs) buttonHTML
           zeroScriptSrc zeroScriptSrc None).
  - left. reflexivity.
  - reflexivity.
Defined.

Lemma AddFromHTMLFile_errors_witness :
  (os_Open (Collaborators := goLibs) "empty-script.html"
   = inl (ErrProcess "empty-script.html" ErrNoContent)
   /\ zeroScriptSrc = zeroScriptSrc)
  \/ (exists f err,
        os_Open (Collaborators := goLibs) "empty-script.html" = inr f
        /\ html_Parse f = inl err
        /\ ErrProcess "empty-script.html" ErrNoContent
           = ErrParseHTML "empty-script.html" err
        /\ zeroScriptSrc = zeroScriptSrc)
  \/ (exists f doc e0,
        os_Open (Collaborators := goLibs) "empty-script.html" = inr f
        /\ html_Parse f = inr doc
        /\ AddFromHTML (libs := goLibs) doc true zeroScriptSrc
           = Returns (Some e0, zeroScriptSrc)
        /\ ErrProcess "empty-script.html" ErrNoContent
           = ErrProcess "empty-script.html" e0).
Proof.
  exact (AddFromHTMLFile_errors (libs := goLibs) "empty-script.html" true
           zeroScriptSrc zeroScriptSrc
           (ErrProcess "empty-script.html" ErrNoContent) eq_refl).
Defined.


Lemma argParser_result_witness :
  (exists flags,
     ["--quiet"; "--sha256"; "--csp-template-string"; "--sha512";
      "a.html"; "--sha512"]
     = (flags ++ ["a.html"; "--sha512"])%list)
  /\ strings.HasPrefix "a.html" "--" = false
  /\ supported Sha256
  /\ (Sha256 = Sha256 ->
      In "--sha256" ["--quiet"; "--sha256"; "--csp-template-string"; "--sha512";
                     "a.html"; "--sha512"])
  /\ (false = false ->
      In "--quiet" ["--quiet"; "--sha256"; "--csp-template-string"; "--sha512";
                    "a.html"; "--sha512"]).
Proof.
  exact (argParser_result
           ["--quiet"; "--sha256"; "--csp-template-string"; "--sha512";
            "a.html"; "--sha512"]
           (cli.mkOptions false "" "--sha512" Sha256 true)
           ["a.html"; "--sha512"] eq_refl).
Defined.

Lemma main_reports_witness :
  cli.main (libs := goLibs) (templates := goTemplates) "script-src-generator"
           ["--quiet"; "just-self.html"; "protocol-relative.html"]
  = Returns (cli.mkRun [cli.Line "'self'"] [] 0)
  /\ exists log,
       cli.main (libs := goLibs) (templates := goTemplates) "script-src-generator"
                ["empty-script.html"; "just-self.html"]
       = Returns (cli.mkRun [] log 1)
       /\ In "failed to process empty-script.html: script tag had no src attribute and no content"
             log.
Proof.
  split.
  - destruct (main_reports (libs := goLibs) (templates := goTemplates)
                "script-src-generator"
                ["--quiet"; "just-self.html"; "protocol-relative.html"]
                ["just-self.html"; "protocol-relative.html"]
                (cli.mkOptions false "" "" Sha512 false) []
                (setSelf true zeroScriptSrc) eq_refl) as [Hmain Hreport].
    + eapply Processed_ok; [reflexivity|].
      eapply Processed_ok; [reflexivity|]. constructor.
    + rewrite Hmain. rewrite Hreport by reflexivity. reflexivity.
  - destruct (main_reports (libs := goLibs) (templates := goTemplates)
                "script-src-generator"
                ["empty-script.html"; "just-self.html"]
                ["empty-script.html"; "just-self.html"]
                cli.defaults [ErrProcess "empty-script.html" ErrNoContent]
                (setSelf true zeroScriptSrc) eq_refl) as (log & Hmain & Herrors & _).
    + eapply Processed_failed; [reflexivity|].
      eapply Processed_ok; [reflexivity|]. constructor.
    + exists log. split; [exact Hmain|].
      apply (Herrors (ErrProcess "empty-script.html" ErrNoContent)). now left.
Defined.

(** The command of the package documentation, with a template. *)
Example documentation_command :
  cli.main (libs := goLibs) (templates := goTemplates) "script-src-generator"
           ["--quiet"; "--csp-template-string";
            "Content-Security-Policy: script-src {{ .ScriptSrc }};";
            "index.html"; "just-self.html"]
  = Returns
      (cli.mkRun
         [cli.Written
            ("Content-Security-Policy: script-src "
             ++ ScriptSrc_String documentationPolicy ++ ";")]
         [] 0).
Proof. vm_compute. reflexivity. Qed.

Lemma AddFromHTML_keeps_no_duplicates_witness :
  exists r s',
    AddFromHTML (libs := goLibs) twoSrcHTML true
                (mkScriptSrc false [helloHash] Sha256 ["https://cdn.example.com"] [])
    = Returns (r, s')
    /\ DefaultHashAlgorithm s' = Sha256
    /\ NoDup (Hashes s') /\ NoDup (Hosts s').
Proof.
  apply (AddFromHTML_keeps_no_duplicates (libs := goLibs) twoSrcHTML true
           (mkScriptSrc false [helloHash] Sha256 ["https://cdn.example.com"] [])).
  - right. reflexivity.
  - simpl. repeat constructor. intros [].
  - simpl. repeat constructor. intros [].
Defined.

(** A pattern with a match and a pattern without one. *)
Example pattern_examples :
  ScriptSrcFromHTMLFileGlob (libs := goLibs) (glob := goGlob) "*-self.html" true
  = Returns (Some (setSelf true zeroScriptSrc), None)
  /\ ScriptSrcFromHTMLFileGlob (libs := goLibs) (glob := goGlob) "*.htm" true
     = Returns (Some zeroScriptSrc, None).
Proof. split; reflexivity. Qed.
